(** * Dogmatic Views: caching and two-pass rendering pipeline

    A shallow embedding of [src/index.js]: the resource locator
    ([hasPath], [makePath], [addExtension]), the process-wide
    configuration, the raw/compressed file cache ([Views.file]) and the
    two render passes ([Views.jade], [Views.handlebars]) that share one
    template cache.

    Conventions of the embedding.
    - A JavaScript string is a [string] of 8-bit characters, one per
      code unit (names are taken in the ASCII range).
    - The two module-level objects [files] and [templates] are used as
      dictionaries and are modelled as finite maps over their own
      properties; names that collide with members of [Object.prototype]
      are outside the model of the current version.  The file cache of
      the earlier version looks its names up as a plain object does,
      inherited members included.
    - The route handlers look their engine up in [Views] by a name that
      is configurable: every member that the library defines or that
      [Views] inherits is given what calling it comes to, and a name
      that is not a member throws.
    - A promise chain is a state transformer returning a settled result;
      a call is driven until all of its chains have settled before the
      next call starts.  Where a call starts a chain that it does not
      wait for, the world says which of the two chains settles last.
    - The file system, gzip and the two template engines are external
      capabilities, gathered in a record that is an argument of every
      call, so that the outside world may change between two calls. *)

From Stdlib Require Import String Ascii List Bool Arith Lia.
From stdpp Require Import base option list gmap strings.

Local Open Scope string_scope.
Local Open Scope list_scope.

(** ** JavaScript string literals and the regular expression of [hasPath] *)

Module Js.

(** The value denoted by a string literal whose only escapes are
    identity escapes: a backslash before a character that starts no
    escape sequence is dropped, so the two characters [\.] denote [.]. *)
Fixpoint literal (src : string) : string :=
  match src with
  | EmptyString => EmptyString
  | String "\" (String c rest) => String c (literal rest)
  | String c rest => String c (literal rest)
  end.

(** Truthiness of a string: every string but the empty one. *)
Definition truthy_string (s : string) : bool :=
  match s with EmptyString => false | _ => true end.

Inductive atom : Type :=
  | Any
  | Lit (c : ascii).

Inductive item : Type :=
  | One (a : atom)
  | Opt (a : atom).

Inductive token : Type :=
  | TAtom (a : atom)
  | TQuest.

(** Pattern syntax used by the source: literal characters, [.] for any
    character but a line terminator, [\c] for the character [c] itself,
    and the postfix [?]. *)
Fixpoint lex (src : string) : list token :=
  match src with
  | EmptyString => []
  | String "\" (String c rest) => TAtom (Lit c) :: lex rest
  | String "." rest => TAtom Any :: lex rest
  | String "?" rest => TQuest :: lex rest
  | String c rest => TAtom (Lit c) :: lex rest
  end.

Fixpoint items (ts : list token) : list item :=
  match ts with
  | [] => []
  | TAtom a :: TQuest :: rest => Opt a :: items rest
  | TAtom a :: rest => One a :: items rest
  | TQuest :: rest => items rest
  end.

Record regexp : Type := RegExp_ {
  anchored : bool;
  body : list item
}.

Definition RegExp (src : string) : regexp :=
  match src with
  | String "^" rest => RegExp_ true (items (lex rest))
  | _ => RegExp_ false (items (lex src))
  end.

Definition line_terminator (c : ascii) : bool :=
  (Ascii.eqb c "010" || Ascii.eqb c "013")%bool.

Definition accepts (a : atom) (c : ascii) : bool :=
  match a with
  | Any => negb (line_terminator c)
  | Lit d => Ascii.eqb c d
  end.

(** Backtracking match of a pattern at the head of a string; [?] is
    greedy, which does not change whether a match exists. *)
Fixpoint match_here (p : list item) (s : string) : bool :=
  match p with
  | [] => true
  | One a :: k =>
      match s with
      | String c r => accepts a c && match_here k r
      | EmptyString => false
      end
  | Opt a :: k =>
      match s with
      | String c r => (accepts a c && match_here k r) || match_here k s
      | EmptyString => match_here k s
      end
  end.

Fixpoint search (p : list item) (s : string) : bool :=
  match_here p s ||
  match s with
  | String _ r => search p r
  | EmptyString => false
  end.

Definition test (re : regexp) (s : string) : bool :=
  if anchored re then match_here (body re) s else search (body re) s.

End Js.

(** ** Node's [path] module, POSIX flavour *)

Module Path.

Definition sep : string := "/".

Definition is_sep (c : ascii) : bool := Ascii.eqb c "/".

(** Split at every separator; [split "a//b" = ["a"; ""; "b"]]. *)
Fixpoint split_acc (cur : string) (s : string) : list string :=
  match s with
  | EmptyString => [String.rev cur]
  | String c r =>
      if is_sep c then String.rev cur :: split_acc EmptyString r
      else split_acc (String c cur) r
  end.

Definition split (s : string) : list string := split_acc EmptyString s.

(** [normalizeArray]: drops empty and [.] segments and resolves [..];
    [res] is the stack of kept segments, last one first. *)
Fixpoint normalizeArray (parts : list string) (allowAboveRoot : bool)
    (res : list string) : list string :=
  match parts with
  | [] => rev res
  | p :: rest =>
      if (String.eqb p "" || String.eqb p ".")%bool then
        normalizeArray rest allowAboveRoot res
      else if String.eqb p ".." then
        match res with
        | top :: below =>
            if String.eqb top ".."
            then normalizeArray rest allowAboveRoot
                   (if allowAboveRoot then ".." :: res else res)
            else normalizeArray rest allowAboveRoot below
        | [] =>
            normalizeArray rest allowAboveRoot
              (if allowAboveRoot then [".."] else [])
        end
      else normalizeArray rest allowAboveRoot (p :: res)
  end.

Fixpoint concat_with (d : string) (l : list string) : string :=
  match l with
  | [] => ""
  | [x] => x
  | x :: rest => x +:+ d +:+ concat_with d rest
  end.

Definition starts_with_sep (s : string) : bool :=
  match s with String c _ => is_sep c | EmptyString => false end.

Fixpoint ends_with_sep (s : string) : bool :=
  match s with
  | EmptyString => false
  | String c EmptyString => is_sep c
  | String _ r => ends_with_sep r
  end.

Definition normalize (p : string) : string :=
  let isAbsolute := starts_with_sep p in
  let trailingSlash := ends_with_sep p in
  let body := concat_with "/" (normalizeArray (split p) (negb isAbsolute) []) in
  let body := if (negb (Js.truthy_string body) && negb isAbsolute)%bool
              then "." else body in
  let body := if (Js.truthy_string body && trailingSlash)%bool
              then body +:+ "/" else body in
  (if isAbsolute then "/" else "") +:+ body.

(** [path.join]: the non-empty arguments separated by [/], normalized. *)
Definition join (segments : list string) : string :=
  normalize (concat_with "/" (filter (fun s => Js.truthy_string s = true) segments)).

(** The last portion of a path, trailing separators ignored, given as
    the list of its characters, last one first. *)
Fixpoint drop_seps (l : list ascii) : list ascii :=
  match l with
  | c :: r => if is_sep c then drop_seps r else l
  | [] => []
  end.

Fixpoint until_sep (l : list ascii) : list ascii :=
  match l with
  | c :: r => if is_sep c then [] else c :: until_sep r
  | [] => []
  end.

Definition rev_basename (p : string) : list ascii :=
  until_sep (drop_seps (rev (list_ascii_of_string p))).

(** Scans a reversed basename for its last dot; returns the characters
    that follow that dot (in order) and the reversed rest before it. *)
Fixpoint cut_at_dot (acc : list ascii) (l : list ascii)
    : option (list ascii * list ascii) :=
  match l with
  | [] => None
  | c :: r =>
      if Ascii.eqb c "." then Some (acc, r) else cut_at_dot (c :: acc) r
  end.

(** [path.extname]: from the last dot of the last portion to its end;
    empty when there is no dot, when the only dot starts the portion,
    and for the portion [..]. *)
Definition extname (p : string) : string :=
  match cut_at_dot [] (rev_basename p) with
  | None => ""
  | Some (after, before) =>
      match before, after with
      | [], _ => ""
      | [d], [] => if Ascii.eqb d "." then "" else "."
      | _, _ => string_of_list_ascii ("."%char :: after)
      end
  end.

End Path.

(** ** Values *)

Definition bytes : Type := list Byte.byte.

(** Primitive values that may be passed where an options object is
    expected, or sit in one of its fields. *)
Inductive prim : Type :=
  | PUndefined
  | PNull
  | PBool (b : bool)
  | PNumber (n : Z)
  | PString (s : string).

Definition truthy (p : prim) : bool :=
  match p with
  | PUndefined | PNull => false
  | PBool b => b
  | PNumber n => negb (Z.eqb n 0)
  | PString s => Js.truthy_string s
  end.

(** An object passed as [options]: each recognised property is absent
    or holds a value. *)
Record object : Type := Object {
  prop_cache : option prim;
  prop_zip : option prim;
  prop_warm : option prim
}.

Inductive value : Type :=
  | VPrim (p : prim)
  | VObject (o : object).

Definition typeof (v : value) : string :=
  match v with
  | VPrim PUndefined => "undefined"
  | VPrim PNull => "object"
  | VPrim (PBool _) => "boolean"
  | VPrim (PNumber _) => "number"
  | VPrim (PString _) => "string"
  | VObject _ => "object"
  end.

Definition empty_object : object := Object None None None.

(** [("object" === typeof options) ? options : {}]; the source object
    [null] contributes no property to [assign]. *)
Definition options_or_empty (options : value) : object :=
  if String.eqb "object" (typeof options) then
    match options with
    | VObject o => o
    | VPrim _ => empty_object
    end
  else empty_object.

(** [assign(defaults, options)]: a property of [options] that is
    present wins over the default. *)
Definition assign_prop (dflt : option prim) (given : option prim) : option prim :=
  match given with
  | Some v => Some v
  | None => dflt
  end.

Definition assign (defaults options : object) : object :=
  Object (assign_prop (prop_cache defaults) (prop_cache options))
         (assign_prop (prop_zip defaults) (prop_zip options))
         (assign_prop (prop_warm defaults) (prop_warm options)).

(** Truthiness of [options.p]: an absent property reads [undefined]. *)
Definition get (p : option prim) : bool :=
  match p with
  | Some v => truthy v
  | None => false
  end.

Definition file_defaults : object :=
  Object (Some (PBool true)) (Some (PBool true)) None.

Definition jade_defaults : object :=
  Object (Some (PBool true)) None None.

(** ** Process-wide configuration *)

Record config : Type := Config {
  cache : bool;
  dirroot : string;
  dirviews : string;
  dirpublic : string;
  engFirst : string;
  engSecond : string
}.

(** [process.env.CACHE || (process.env.NODE_ENV === "production")],
    read for its truthiness. *)
Definition cache_flag (env_CACHE env_NODE_ENV : option string) : bool :=
  match env_CACHE with
  | Some s => if Js.truthy_string s then true
              else bool_decide (env_NODE_ENV = Some "production")
  | None => bool_decide (env_NODE_ENV = Some "production")
  end.

Definition initial_config (dirname : string) (env_CACHE env_NODE_ENV : option string)
    : config :=
  {| cache := cache_flag env_CACHE env_NODE_ENV;
     dirroot := Path.join [dirname; ".."; ".."];
     dirviews := "views";
     dirpublic := "public";
     engFirst := "jade";
     engSecond := "handlebars" |}.

(** ** The resource locator *)

Definition pathRE : Js.regexp :=
  Js.RegExp (Js.literal "^\.?\.?" +:+ Path.sep).

Definition hasPath (name : string) : bool := Js.test pathRE name.

Definition makePath (cfg : config) (name dir : string) : string :=
  if hasPath name then name else Path.join [dirroot cfg; dir; name].

Definition addExtension (name ext : string) : string :=
  if negb (String.eqb (Path.extname name) "") then name
  else name +:+ "." +:+ ext.

(** ** Cache state and capabilities *)

(** An entry of [files]: an object whose properties [std] and [zip]
    are each absent or hold a buffer. *)
Record entry : Type := Entry {
  ent_std : option bytes;
  ent_zip : option bytes
}.

(** What a slot of [templates] holds and what flows through the render
    chains: markup, a buffer read without an encoding, or a compiled
    template, named by an opaque handle. *)
Inductive tvalue : Type :=
  | TString (html : string)
  | TBuffer (b : bytes)
  | TFunction (handle : string).

Definition truthy_tvalue (v : tvalue) : bool :=
  match v with
  | TString s => Js.truthy_string s
  | TBuffer _ => true
  | TFunction _ => true
  end.

(** Calls made to the external capabilities, oldest first. *)
Inductive event : Type :=
  | Read (path : string)
  | Gzip (data : bytes)
  | Render (filename : string)
  | Compile (input : tvalue).

Record state : Type := State {
  files : gmap string entry;
  templates : gmap string tvalue;
  trace : list event
}.

Definition init : state := State ∅ ∅ [].

Inductive error : Type :=
  | ReadError (path : string)
  | CompressionError
  | RenderError
  | CompileError.

(** The outside world at the time of a call: the capabilities, and the
    order in which the event loop settles two chains that run side by
    side, a detached one and the one the call returns. *)
Record world : Type := World {
  fs : string -> option bytes;
  utf8 : bytes -> string;
  gzip : bytes -> option bytes;
  render : string -> gmap string string -> option string;
  compile : tvalue -> option string;
  detached_last : bool
}.

(** ** Promises *)

Inductive result (A : Type) : Type :=
  | Resolved (a : A)
  | Rejected (e : error).

Arguments Resolved {A} a.
Arguments Rejected {A} e.

Definition promise (A : Type) : Type := state -> result A * state.

Definition when {A : Type} (a : A) : promise A :=
  fun st => (Resolved a, st).

Definition then_ {A B : Type} (p : promise A) (f : A -> promise B) : promise B :=
  fun st =>
    match p st with
    | (Resolved a, st') => f a st'
    | (Rejected e, st') => (Rejected e, st')
    end.

(** [p.tap(f)]: runs [f] for its effect on the store, keeps the value. *)
Definition tap {A : Type} (p : promise A) (f : A -> state -> state) : promise A :=
  then_ p (fun a st => (Resolved a, f a st)).

(** A chain that is started and whose outcome nobody waits for: only
    its effects remain. *)
Definition detached {A : Type} (p : promise A) (st : state) : state :=
  snd (p st).

Notation "p '.then' f" := (then_ p f) (at level 50, left associativity).
Notation "p '.tap' f" := (tap p f) (at level 50, left associativity).

Definition log (e : event) (st : state) : state :=
  State (files st) (templates st) (trace st ++ [e]).

Definition set_files (f : gmap string entry -> gmap string entry) (st : state) : state :=
  State (f (files st)) (templates st) (trace st).

Definition set_templates (f : gmap string tvalue -> gmap string tvalue) (st : state)
    : state :=
  State (files st) (f (templates st)) (trace st).

Definition of_option {A : Type} (e : error) (o : option A) : result A :=
  match o with
  | Some a => Resolved a
  | None => Rejected e
  end.

(** [readFile = nodefn.lift(fs.readFile)], without an encoding. *)
Definition readFile (w : world) (path : string) : promise bytes :=
  fun st => (of_option (ReadError path) (fs w path), log (Read path) st).

(** [readFile(path, "utf8")]. *)
Definition readFile_utf8 (w : world) (path : string) : promise string :=
  readFile w path .then (fun b => when (utf8 w b)).

(** [zip = nodefn.lift(zlib.gzip)]. *)
Definition zip (w : world) (data : bytes) : promise bytes :=
  fun st => (of_option CompressionError (gzip w data), log (Gzip data) st).

(** [when.try(render, file, params)]. *)
Definition try_render (w : world) (file : string) (params : gmap string string)
    (filename : string) : promise string :=
  fun st => (of_option RenderError (render w file params), log (Render filename) st).

(** [when.try(compile, html)]. *)
Definition try_compile (w : world) (html : tvalue) : promise tvalue :=
  fun st => (of_option CompileError (TFunction <$> compile w html),
             log (Compile html) st).

(** [new Buffer(zipped, "binary")] of a buffer: a copy of its bytes. *)
Definition Buffer (zipped : bytes) : bytes := zipped.

(** ** The library *)

Module Views.

(** Getters/setters: a truthy argument sets, anything else reads. *)
Definition setter (newValue : option string) : option string :=
  match newValue with
  | Some s => if Js.truthy_string s then Some s else None
  | None => None
  end.

Definition root (newRoot : option string) (cfg : config) : option string * config :=
  match setter newRoot with
  | Some r => (None, Config (cache cfg) r (dirviews cfg) (dirpublic cfg)
                       (engFirst cfg) (engSecond cfg))
  | None => (Some (dirroot cfg), cfg)
  end.

Definition views (newViews : option string) (cfg : config) : option string * config :=
  match setter newViews with
  | Some v => (None, Config (cache cfg) (dirroot cfg) v (dirpublic cfg)
                       (engFirst cfg) (engSecond cfg))
  | None => (Some (dirviews cfg), cfg)
  end.

Definition public (newPublic : option string) (cfg : config) : option string * config :=
  match setter newPublic with
  | Some v => (None, Config (cache cfg) (dirroot cfg) (dirviews cfg) v
                       (engFirst cfg) (engSecond cfg))
  | None => (Some (dirpublic cfg), cfg)
  end.

Definition firstPass (newEngine : option string) (cfg : config)
    : option string * config :=
  match setter newEngine with
  | Some v => (None, Config (cache cfg) (dirroot cfg) (dirviews cfg) (dirpublic cfg)
                       v (engSecond cfg))
  | None => (Some (engFirst cfg), cfg)
  end.

Definition secondPass (newEngine : option string) (cfg : config)
    : option string * config :=
  match setter newEngine with
  | Some v => (None, Config (cache cfg) (dirroot cfg) (dirviews cfg) (dirpublic cfg)
                       (engFirst cfg) v)
  | None => (Some (engSecond cfg), cfg)
  end.

(** [files[name][type]] for [type] one of ["zip"] and ["std"]. *)
Definition representation (e : entry) (type : string) : option bytes :=
  if String.eqb type "zip" then ent_zip e else ent_std e.

(** [files[name].zip = new Buffer(zipped, "binary")] *)
Definition store_zip (name : string) (zipped : bytes) : state -> state :=
  set_files (alter (fun e => Entry (ent_std e) (Some (Buffer zipped))) name).

(** The body of the final [spread] callback of [file]. *)
Definition store_file (name : string) (options : object)
    (file : bytes) (zipped : option bytes) : state -> state :=
  if get (prop_cache options) then
    set_files (insert name
      (Entry (Some file)
             (if get (prop_zip options) then Buffer <$> zipped else None)))
  else fun st => st.

(** The chain that starts at [readFile(name)].  [zipped] is defined
    whenever [options.zip] is truthy, that is whenever [type] is
    ["zip"]. *)
Definition read_file (w : world) (name : string) (options : object) (type : string)
    : promise bytes :=
  readFile w name
  .then (fun file =>
    if get (prop_zip options)
    then zip w file .then (fun zipped => when (file, Some zipped))
    else when (file, None))
  .then (fun '(file, zipped) st =>
    (Resolved (if String.eqb "std" type then file else default file zipped),
     store_file name options file zipped st)).

(** The detached chain [zip(data).tap(store)] beside the chain [main]
    that the call goes on to build.  Gzip is called before [main]
    starts; nothing orders the two chains after that, and the [tap]
    callback stores the compressed bytes either before the callbacks
    of [main] run or after [main] has settled, as the world has it. *)
Definition beside {A : Type} (w : world) (data : bytes)
    (store : bytes -> state -> state) (main : promise A) : promise A :=
  fun st =>
    if detached_last w then
      let '(r, st') := main (log (Gzip data) st) in
      (r, match gzip w data with
          | Some zipped => store zipped st'
          | None => st'
          end)
    else main (detached (zip w data .tap store) st).

(** [Views.file].  On an entry that lacks the requested representation
    the source starts [zip(files[name].std)] with a [tap] that stores
    the outcome, does not return, and falls through to the read.  An
    absent [std] reaches gzip as [undefined], which the stream ends on
    without writing: no input at all. *)
Definition file (w : world) (cfg : config) (name : string) (options : value)
    : promise bytes :=
  let options := options_or_empty options in
  let options := assign file_defaults options in
  let type := if get (prop_zip options) then "zip" else "std" in
  fun st =>
    match files st !! name with
    | Some e =>
        if cache cfg then
          match representation e type with
          | Some b => when b st
          | None =>
              beside w (default [] (ent_std e)) (store_zip name)
                (read_file w name options type) st
          end
        else read_file w name options type st
    | None => read_file w name options type st
    end.

(** [Views.publicFile]: the directory is the literal ["public"]. *)
Definition publicFile (w : world) (cfg : config) (name : string) (options : value)
    : promise bytes :=
  file w cfg (makePath cfg name "public") options.

(** The closure variable [defaults] of the render functions; nothing
    ever adds a property to it. *)
Definition defaults : gmap string string := ∅.

(** The chain of [Views.jade] that starts at [readFile(loc, "utf8")]. *)
Definition render_file (w : world) (cfg : config) (name : string)
    (vars : option (gmap string string)) (options : object) : promise tvalue :=
  let loc := makePath cfg name (dirviews cfg) in
  readFile_utf8 w loc
  .then (fun file =>
    let params := <["filename" := loc]> (default ∅ vars ∪ defaults) in
    try_render w file params loc)
  .then (fun html => when (TString html))
  .tap (fun html =>
    if get (prop_cache options)
    then set_templates (insert name html)
    else fun st => st).

Definition jade (w : world) (cfg : config) (name : string)
    (vars : option (gmap string string)) (options : value) : promise tvalue :=
  let options := options_or_empty options in
  let options := assign jade_defaults options in
  let name := addExtension name "jade" in
  fun st =>
    match templates st !! name with
    | Some t =>
        if (truthy_tvalue t && cache cfg)%bool then when t st
        else render_file w cfg name vars options st
    | None => render_file w cfg name vars options st
    end.

(** The promise that [Views.handlebars] builds before [.then(compile)]. *)
Definition markup (w : world) (cfg : config) (name : string)
    (vars : option (gmap string string)) : promise tvalue :=
  if String.eqb (Path.extname name) ".html"
  then readFile w (makePath cfg name (dirviews cfg))
       .then (fun b => when (TBuffer b))
  else jade w cfg name vars (VPrim (PBool false)).

Definition handlebars (w : world) (cfg : config) (name : string)
    (vars : option (gmap string string)) : promise tvalue :=
  let name := addExtension name "jade" in
  markup w cfg name vars
  .then (fun html => try_compile w html)
  .tap (fun compiled => set_templates (insert name compiled)).

End Views.

(** ** Route handlers *)

(** What the handlers read of a request: whether the negotiation
    [accepts(req).encodings("gzip")] names an encoding. *)
Record request : Type := Request {
  accepts_gzip : bool
}.

Inductive header : Type :=
  | HString (s : string)
  | HNumber (n : nat).

(** Calls made on the response object, oldest first. *)
Inductive res_call : Type :=
  | res_type (t : string)
  | res_set (headers : list (string * header))
  | res_send (body : tvalue)
  | res_status (code : nat)
  | res_end.

(** Why the chain of a handler ends rejected: the pipeline failed, or
    the callback that writes the response threw. *)
Inductive failure : Type :=
  | Pipeline (e : error)
  | Threw.

(** What a request leaves behind: the calls on the response, and the
    rejection, if any, that the [catch] callback hands on. *)
Record served : Type := Served {
  calls : list res_call;
  rejection : option failure
}.

(** The [catch] callback shared by the three handlers:
    [res.status(404).end(); return when.reject(err)]. *)
Definition not_found (before : list res_call) (err : failure) : served :=
  Served (before ++ [res_status 404; res_end]) (Some err).

(** The value of [options.p], passed on as an argument. *)
Definition property (p : option prim) : value :=
  VPrim (default PUndefined p).

Definition handler_defaults : object :=
  Object (Some (PBool true)) None (Some (PBool true)).

Definition script_defaults : object :=
  Object (Some (PBool true)) (Some (PBool true)) (Some (PBool true)).

(** The function returned by [Views.scriptHandler]. *)
Definition script_request (name : string) (w : world) (cfg : config)
    (req : request) (st : state) : served * state :=
  let needsZip := accepts_gzip req in
  match Views.publicFile w cfg name
          (VObject (Object None (Some (PBool needsZip)) None)) st with
  | (Resolved data, st') =>
      (Served
         ((if needsZip
           then [res_set [("Content-Encoding", HString "gzip");
                          ("Content-Type", HString "application/javascript");
                          ("Content-Length", HNumber (length data))]]
           else []) ++ [res_send (TBuffer data)])
         None, st')
  | (Rejected e, st') => (not_found [] (Pipeline e), st')
  end.

Definition scriptHandler (w : world) (cfg : config) (name : string)
    (options : value) (st : state)
    : (world -> config -> request -> state -> served * state) * state :=
  let options := options_or_empty options in
  let options := assign script_defaults options in
  (script_request name,
   if get (prop_warm options)
   then detached (Views.publicFile w cfg name (VObject options)) st
   else st).

(** *** [Views[engine](name, vars, third)]

    The static and the template handler look their engine up by name
    in [Views], at the time of the call, and call what they find with
    the name and the variables.  The name is any string that
    [Views.firstPass] or [Views.secondPass] was given: it may name a
    member that is no render function, or nothing at all. *)

(** What such a call comes to, for a caller that goes on with [.then]:
    a promise, here with what it settles to; a value without a [then]
    to call, [undefined], a string or a function, on which [.then(...)]
    throws a TypeError; or an exception thrown by the call itself. *)
Inductive returned : Type :=
  | Promise (r : result tvalue)
  | Plain
  | Thrown.

(** The variables of a template, read as an [options] argument by the
    members that take one in second place. *)
Definition vars_value (vars : option (gmap string string)) : value :=
  match vars with
  | None => VPrim PUndefined
  | Some m =>
      VObject (Object (PString <$> m !! "cache") (PString <$> m !! "zip")
                      (PString <$> m !! "warm"))
  end.

(** A promise for bytes resolves to a Buffer. *)
Definition buffer (r : result bytes) : result tvalue :=
  match r with
  | Resolved b => Resolved (TBuffer b)
  | Rejected e => Rejected e
  end.

(** The members that [Views], a plain object, inherits from
    [Object.prototype] and that return when called with a string and
    an object or [undefined]: a wrapper, a string, [Views] itself, a
    boolean or [undefined], none of which has a [then].  Of the other
    inherited members, [__defineGetter__] and [__defineSetter__] throw
    on a second argument that is not callable, and [__proto__] is no
    function. *)
Definition inherited_callable : list string :=
  ["constructor"; "toString"; "toLocaleString"; "valueOf"; "hasOwnProperty";
   "isPrototypeOf"; "propertyIsEnumerable"; "__lookupGetter__"; "__lookupSetter__"].

(** The members that call no engine in turn.  A getter/setter receives
    the name as its argument; [Views.file], [Views.publicFile] and
    [Views.scriptHandler] receive the variables as their options.
    Calling a property that is not there, or that is no function,
    throws. *)
Definition plain_member (w : world) (member : string) (name : string)
    (vars : option (gmap string string)) (third : value) (cfg : config) (st : state)
    : returned * config * state :=
  if String.eqb member "jade" then
    let '(r, st') := Views.jade w cfg name vars third st in (Promise r, cfg, st')
  else if String.eqb member "handlebars" then
    let '(r, st') := Views.handlebars w cfg name vars st in (Promise r, cfg, st')
  else if String.eqb member "file" then
    let '(r, st') := Views.file w cfg name (vars_value vars) st in
    (Promise (buffer r), cfg, st')
  else if String.eqb member "publicFile" then
    let '(r, st') := Views.publicFile w cfg name (vars_value vars) st in
    (Promise (buffer r), cfg, st')
  else if String.eqb member "root" then (Plain, snd (Views.root (Some name) cfg), st)
  else if String.eqb member "views" then (Plain, snd (Views.views (Some name) cfg), st)
  else if String.eqb member "public" then (Plain, snd (Views.public (Some name) cfg), st)
  else if String.eqb member "firstPass" then
    (Plain, snd (Views.firstPass (Some name) cfg), st)
  else if String.eqb member "secondPass" then
    (Plain, snd (Views.secondPass (Some name) cfg), st)
  else if String.eqb member "scriptHandler" then
    (Plain, cfg, snd (scriptHandler w cfg name (vars_value vars) st))
  else if existsb (String.eqb member) inherited_callable then (Plain, cfg, st)
  else (Thrown, cfg, st).

(** What a handler does to the response: [None] when it throws before
    any promise is at hand, with no call made on the response. *)
Definition reply : Type := option served.

Section Dispatch.

(** The call [Views[engine](name, vars, third)] as the handlers make it. *)
Variable call : world -> string -> string -> option (gmap string string) -> value ->
                config -> state -> returned * config * state.

(** The function returned by [Views.staticHandler]; the engine is read
    from the configuration at the time of the request. *)
Definition static_handle (name : string) (vars : option (gmap string string))
    (options : object) (w : world) (cfg : config) (req : request) (st : state)
    : reply * config * state :=
  match call w (engFirst cfg) name vars (property (prop_cache options)) cfg st with
  | (Promise (Resolved html), cfg', st') =>
      (Some (Served [res_type "html"; res_send html] None), cfg', st')
  | (Promise (Rejected e), cfg', st') => (Some (not_found [] (Pipeline e)), cfg', st')
  | (Plain, cfg', st') => (None, cfg', st')
  | (Thrown, cfg', st') => (None, cfg', st')
  end.

(** [Views.staticHandler]: the optional warm-up, whose promise is
    dropped, and the handler; [None] when the warm-up throws. *)
Definition static_build (w : world) (cfg : config) (name : string)
    (vars : option (gmap string string)) (options : value) (st : state)
    : option (world -> config -> request -> state -> reply * config * state)
      * config * state :=
  let options := options_or_empty options in
  let options := assign handler_defaults options in
  if get (prop_warm options) then
    match call w (engFirst cfg) name vars (property (prop_cache options)) cfg st with
    | (Thrown, cfg', st') => (None, cfg', st')
    | (_, cfg', st') => (Some (static_handle name vars options), cfg', st')
    end
  else (Some (static_handle name vars options), cfg, st).

(** The function returned by [Views.templateHandler].  [invoke] runs a
    compiled template on the local variables, or throws.  The callee
    [res.type("html").send] is evaluated before its argument
    [template(locals || {})]. *)
Definition template_handle (name : string) (vars : option (gmap string string))
    (w : world) (cfg : config)
    (invoke : string -> gmap string string -> option string)
    (req : request) (locals : option (gmap string string)) (st : state)
    : reply * config * state :=
  match call w (engSecond cfg) name vars (VPrim PUndefined) cfg st with
  | (Promise (Resolved (TFunction template)), cfg', st') =>
      match invoke template (default ∅ locals) with
      | Some out => (Some (Served [res_type "html"; res_send (TString out)] None), cfg', st')
      | None => (Some (not_found [res_type "html"] Threw), cfg', st')
      end
  | (Promise (Resolved _), cfg', st') => (Some (not_found [res_type "html"] Threw), cfg', st')
  | (Promise (Rejected e), cfg', st') => (Some (not_found [] (Pipeline e)), cfg', st')
  | (Plain, cfg', st') => (None, cfg', st')
  | (Thrown, cfg', st') => (None, cfg', st')
  end.

Definition template_build (w : world) (cfg : config) (name : string)
    (vars : option (gmap string string)) (options : value) (st : state)
    : option (world -> config -> (string -> gmap string string -> option string) ->
              request -> option (gmap string string) -> state ->
              reply * config * state)
      * config * state :=
  let options := options_or_empty options in
  let options := assign handler_defaults options in
  if get (prop_warm options) then
    match call w (engSecond cfg) name vars (VPrim PUndefined) cfg st with
    | (Thrown, cfg', st') => (None, cfg', st')
    | (_, cfg', st') => (Some (template_handle name vars), cfg', st')
    end
  else (Some (template_handle name vars), cfg, st).

End Dispatch.

(** A handler factory called as an engine: the function it returns has
    no [then]. *)
Definition factory {H : Type} (b : option H * config * state)
    : returned * config * state :=
  match b with
  | (Some _, cfg, st) => (Plain, cfg, st)
  | (None, cfg, st) => (Thrown, cfg, st)
  end.

(** [Views[member](name, vars, third)].  The two factories that look
    an engine up call it in turn, and for ever when the engines name
    each other: [depth] bounds the calls that are pending at one time,
    and the call that exceeds it throws, as a call does that finds the
    stack exhausted. *)
Fixpoint call_member (depth : nat) (w : world) (member : string) (name : string)
    (vars : option (gmap string string)) (third : value) (cfg : config) (st : state)
    : returned * config * state :=
  match depth with
  | O => (Thrown, cfg, st)
  | S depth =>
      if String.eqb member "staticHandler" then
        factory (static_build (call_member depth) w cfg name vars third st)
      else if String.eqb member "templateHandler" then
        factory (template_build (call_member depth) w cfg name vars third st)
      else plain_member w member name vars third cfg st
  end.

(** A chain of such calls that comes to an end is three calls long at
    most, and the outcome is the same at any greater depth (lemma
    [call_member_deeper]). *)
Definition stack : nat := 3.

Definition static_request :=
  static_handle (call_member stack).

Definition staticHandler :=
  static_build (call_member stack).

Definition template_request :=
  template_handle (call_member stack).

Definition templateHandler :=
  template_build (call_member stack).

(** ** The earlier version of the accessors

    The repository also holds an earlier version of the library, in
    which [Views.file] takes a flag [needsZip] and [Views.jade] a flag
    [cacheResults] where the current version takes an options object.
    It shares the locator and the capabilities with the current one. *)

Module Legacy.

Definition truthy_value (v : value) : bool :=
  match v with
  | VPrim p => truthy p
  | VObject _ => true
  end.

(** The chain that starts at [readFile(name)]: the file is always
    compressed, and both representations are always stored. *)
Definition read_file (w : world) (name : string) (type : string)
    : promise (option bytes) :=
  readFile w name
  .then (fun file => zip w file .then (fun zipped => when (file, zipped)))
  .then (fun '(file, zipped) st =>
    let e := Entry (Some file) (Some (Buffer zipped)) in
    (Resolved (Views.representation e type), set_files (insert name e) st)).

(** The names that [files], a plain object, inherits from
    [Object.prototype]. *)
Definition inherited : list string :=
  ["constructor"; "toString"; "toLocaleString"; "valueOf"; "hasOwnProperty";
   "isPrototypeOf"; "propertyIsEnumerable"; "__defineGetter__"; "__defineSetter__";
   "__lookupGetter__"; "__lookupSetter__"; "__proto__"].

(** What [files[name]] finds when it is truthy: an entry that a read
    stored, or a value that is none, a function or an object that
    [files] inherits, which has neither a [std] nor a [zip]. *)
Inductive found : Type :=
  | Stored (e : entry)
  | Foreign.

(** [files[name]].  The map holds what was assigned, under the name it
    was assigned to.  An assignment to ["__proto__"] does not add a
    property: it makes the entry the prototype of [files], which
    ["__proto__"] then reads, and through which [files] inherits the
    buffers of the entry under the names ["std"] and ["zip"]. *)
Definition lookup (files : gmap string entry) (name : string) : option found :=
  match files !! name with
  | Some e => Some (Stored e)
  | None =>
      if existsb (String.eqb name) inherited then Some Foreign
      else
        match files !! "__proto__" with
        | Some proto =>
            if String.eqb name "std" then (fun _ => Foreign) <$> ent_std proto
            else if String.eqb name "zip" then (fun _ => Foreign) <$> ent_zip proto
            else None
        | None => None
        end
  end.

(** [files[name][type]], which reads [undefined] on a property that is
    absent. *)
Definition member (f : found) (type : string) : option bytes :=
  match f with
  | Stored e => Views.representation e type
  | Foreign => None
  end.

(** [Views.file(name, needsZip)]. *)
Definition file (w : world) (cfg : config) (name : string) (needsZip : value)
    : promise (option bytes) :=
  let type := if truthy_value needsZip then "zip" else "std" in
  fun st =>
    match lookup (files st) name with
    | Some f =>
        if cache cfg then when (member f type) st
        else read_file w name type st
    | None => read_file w name type st
    end.

Definition publicFile (w : world) (cfg : config) (name : string) (needsZip : value)
    : promise (option bytes) :=
  file w cfg (makePath cfg name "public") needsZip.

(** [Views.jade(name, vars, cacheResults)]; [cacheResults] is [true]
    when it is [undefined] and is read for its truthiness otherwise. *)
Definition jade (w : world) (cfg : config) (name : string)
    (vars : option (gmap string string)) (cacheResults : value) : promise tvalue :=
  let cacheResults :=
    if String.eqb "undefined" (typeof cacheResults) then true
    else truthy_value cacheResults in
  let name := addExtension name "jade" in
  fun st =>
    let miss :=
      let loc := makePath cfg name (dirviews cfg) in
      readFile_utf8 w loc
      .then (fun file =>
        let params := <["filename" := loc]> (default ∅ vars ∪ Views.defaults) in
        try_render w file params loc)
      .then (fun html => when (TString html))
      .tap (fun html =>
        if cacheResults then set_templates (insert name html) else fun st => st) in
    match templates st !! name with
    | Some t => if (truthy_tvalue t && cache cfg)%bool then when t st else miss st
    | None => miss st
    end.

Definition handlebars (w : world) (cfg : config) (name : string)
    (vars : option (gmap string string)) : promise tvalue :=
  let name := addExtension name "jade" in
  (if String.eqb (Path.extname name) ".html"
   then readFile w (makePath cfg name (dirviews cfg)) .then (fun b => when (TBuffer b))
   else jade w cfg name vars (VPrim (PBool false)))
  .then (fun html => try_compile w html)
  .tap (fun compiled => set_templates (insert name compiled)).

End Legacy.

(** ** A sample deployment, used to run the model *)

Module Sample.

Definition hi : bytes := [Byte.x68; Byte.x69].

(** A stand-in for gzip: a two-byte magic number before the input. *)
Definition sample_gzip (data : bytes) : option bytes :=
  Some (Byte.x1f :: Byte.x8b :: data).

Definition sample_render (file : string) (params : gmap string string)
    : option string :=
  Some ("<b>" +:+ file +:+ "</b>").

(** Handlebars compiles strings and throws on anything else. *)
Definition sample_compile (input : tvalue) : option string :=
  match input with
  | TString html => Some ("template:" +:+ html)
  | _ => None
  end.

Definition disk (path : string) : option bytes :=
  if String.eqb path "/srv/site/public/app.js" then Some hi
  else if String.eqb path "/srv/site/views/app.jade" then Some hi
  else if String.eqb path "js/app.js" then Some hi
  else None.

Definition empty_disk (path : string) : option bytes := None.

Definition online : world :=
  World disk string_of_list_byte sample_gzip sample_render sample_compile false.

(** The same deployment after the files have been removed. *)
Definition wiped : world :=
  World empty_disk string_of_list_byte sample_gzip sample_render sample_compile false.

(** The same deployment with a second-pass engine that rejects. *)
Definition strict : world :=
  World disk string_of_list_byte sample_gzip sample_render (fun _ => None) false.

Definition production : config :=
  initial_config "/srv/site/node_modules/dogmatic-views" None (Some "production").

Definition development : config :=
  initial_config "/srv/site/node_modules/dogmatic-views" None None.

Definition no_zip : value := VObject (Object None (Some (PBool false)) None).

End Sample.

(** ** Vocabulary of the properties *)

(** Some separator stands at index at most [n], after characters that
    are not line terminators. *)
Fixpoint sep_within (n : nat) (s : string) : bool :=
  match s with
  | EmptyString => false
  | String c r =>
      Path.is_sep c ||
      match n with
      | O => false
      | S n' => negb (Js.line_terminator c) && sep_within n' r
      end
  end.

Definition rooted_prefix (name : string) : bool :=
  String.prefix "/" name || String.prefix "./" name || String.prefix "../" name.

Definition file_options (options : value) : object :=
  assign file_defaults (options_or_empty options).

Definition jade_options (options : value) : object :=
  assign jade_defaults (options_or_empty options).

Definition file_type (options : value) : string :=
  if get (prop_zip (file_options options)) then "zip" else "std".

Fixpoint reads (t : list event) : nat :=
  match t with
  | [] => 0
  | Read _ :: r => S (reads r)
  | _ :: r => reads r
  end.

Fixpoint compressions (t : list event) : nat :=
  match t with
  | [] => 0
  | Gzip _ :: r => S (compressions r)
  | _ :: r => compressions r
  end.

Definition jade_params (cfg : config) (name : string)
    (vars : option (gmap string string)) : gmap string string :=
  <["filename" := makePath cfg name (dirviews cfg)]> (default ∅ vars ∪ Views.defaults).

(** A call that behaves as a miss on any store: its outcome and the
    capability calls it makes are those of the same call on the empty
    store, and exactly one of them is a read. *)
Definition fresh_read {A : Type} (call : promise A) (st : state) : Prop :=
  fst (call st) = fst (call init) /\
  trace (snd (call st)) = trace st ++ trace (snd (call init)) /\
  reads (trace (snd (call init))) = 1.

(** The name under which the first-pass renderer caches and reads. *)
Definition resolved (name : string) : string :=
  if String.eqb (Path.extname name) "" then name +:+ ".jade" else name.

Definition raw_present (st : state) : Prop :=
  map_Forall (fun _ e => is_Some (ent_std e)) (files st).

(** The stores that calls of the library can leave behind. *)
Inductive reachable : state -> Prop :=
  | reach_init : reachable init
  | reach_file w cfg name options st :
      reachable st -> reachable (snd (Views.file w cfg name options st))
  | reach_publicFile w cfg name options st :
      reachable st -> reachable (snd (Views.publicFile w cfg name options st))
  | reach_jade w cfg name vars options st :
      reachable st -> reachable (snd (Views.jade w cfg name vars options st))
  | reach_handlebars w cfg name vars st :
      reachable st -> reachable (snd (Views.handlebars w cfg name vars st)).

(** No character of [before] is a line terminator. *)
Definition one_line (before : string) : bool :=
  forallb (fun c => negb (Js.line_terminator c)) (list_ascii_of_string before).

(** An extension as the library uses them: not empty, without a dot
    and without a separator. *)
Definition plain_extension (ext : string) : bool :=
  Js.truthy_string ext &&
  forallb (fun c => negb (Ascii.eqb c "." || Path.is_sep c)) (list_ascii_of_string ext).

(** The last portion of a name that may end in separators, as the
    list of its characters, last one first. *)
Definition last_portion (name : string) : list ascii :=
  Path.until_sep (rev (list_ascii_of_string name)).



(** One call of an accessor, in any world and configuration. *)
Inductive call : state -> state -> Prop :=
  | call_file w cfg name options st :
      call st (snd (Views.file w cfg name options st))
  | call_publicFile w cfg name options st :
      call st (snd (Views.publicFile w cfg name options st))
  | call_jade w cfg name vars options st :
      call st (snd (Views.jade w cfg name vars options st))
  | call_handlebars w cfg name vars st :
      call st (snd (Views.handlebars w cfg name vars st)).

(** Nothing is evicted and the trace is only extended. *)
Definition grows (st st' : state) : Prop :=
  (forall name, is_Some (files st !! name) -> is_Some (files st' !! name)) /\
  (forall key, is_Some (templates st !! key) -> is_Some (templates st' !! key)) /\
  exists events, trace st' = trace st ++ events.

(** More deployments to run the model on. *)
Module Scenario.

(** A first-pass engine that renders every template to nothing. *)
Definition blank : world :=
  World Sample.disk string_of_list_byte Sample.sample_gzip (fun _ _ => Some "")
        Sample.sample_compile false.

Definition html_disk (path : string) : option bytes :=
  if String.eqb path "/srv/site/views/page.html" then Some Sample.hi else None.

(** A deployment with one file of final markup. *)
Definition static_site : world :=
  World html_disk string_of_list_byte Sample.sample_gzip Sample.sample_render
        Sample.sample_compile false.

(** Running a compiled template: the markup it was compiled from. *)
Definition run (template : string) (locals : gmap string string) : option string :=
  Some template.

Definition rewritten_disk (path : string) : option bytes :=
  if String.eqb path "/srv/site/public/app.js" then Some [Byte.x79; Byte.x6f]
  else None.

(** The sample deployment after its script has been rewritten, with an
    event loop that settles detached chains last. *)
Definition rewritten : world :=
  World rewritten_disk string_of_list_byte Sample.sample_gzip Sample.sample_render
        Sample.sample_compile true.

(** The same, with an event loop that settles them first. *)
Definition rewritten_early : world :=
  World rewritten_disk string_of_list_byte Sample.sample_gzip Sample.sample_render
        Sample.sample_compile false.

(** A working directory whose files are named after members of
    [Object.prototype]. *)
Definition cwd_disk (path : string) : option bytes :=
  if String.eqb path "constructor" then Some Sample.hi
  else if String.eqb path "__proto__" then Some Sample.hi
  else if String.eqb path "std" then Some Sample.hi
  else None.

Definition cwd : world :=
  World cwd_disk string_of_list_byte Sample.sample_gzip Sample.sample_render
        Sample.sample_compile false.

Definition browser : request := Request true.

Definition plain_client : request := Request false.

End Scenario.

(** The options of [Views.scriptHandler] after the defaults. *)
Definition script_options (options : value) : object :=
  assign script_defaults (options_or_empty options).

(** The options of [Views.staticHandler] and [Views.templateHandler]
    after the defaults. *)
Definition handler_options (options : value) : object :=
  assign handler_defaults (options_or_empty options).

(** The location of a script of the public directory. *)
Definition script_location (cfg : config) (name : string) : string :=
  makePath cfg name "public".

(** The headers of a compressed script. *)
Definition gzip_headers (data : bytes) : list (string * header) :=
  [("Content-Encoding", HString "gzip");
   ("Content-Type", HString "application/javascript");
   ("Content-Length", HNumber (length data))].

(** A call that sets a header, as opposed to one that ends the
    response. *)
Definition sets_header (c : res_call) : bool :=
  match c with
  | res_type _ | res_set _ => true
  | _ => false
  end.

(** A response that is complete and not contradictory: headers, then
    either one body and no error, or the status 404, the end of the
    response without a body, and an error handed on. *)
Definition answered (s : served) : Prop :=
  exists before,
    forallb sets_header before = true /\
    ((exists body, calls s = before ++ [res_send body] /\ rejection s = None) \/
     (exists err, calls s = before ++ [res_status 404; res_end] /\
                  rejection s = Some err)).

(** What a factory leaves of its call: whether it returned a handler,
    the configuration and the store. *)
Definition built {H : Type} (b : option H * config * state) : bool * config * state :=
  match b with
  | (Some _, cfg, st) => (true, cfg, st)
  | (None, cfg, st) => (false, cfg, st)
  end.

(** The members of [Views] that return a promise. *)
Definition promising (member : string) : bool :=
  existsb (String.eqb member) ["jade"; "handlebars"; "file"; "publicFile"].

(** The engines name factories that call each other without end. *)
Definition looping (cfg : config) (member : string) : Prop :=
  (member = "staticHandler" /\ engFirst cfg = "staticHandler") \/
  (member = "templateHandler" /\ engSecond cfg = "templateHandler") \/
  (member = "staticHandler" /\ engFirst cfg = "templateHandler" /\
   engSecond cfg = "staticHandler") \/
  (member = "templateHandler" /\ engSecond cfg = "staticHandler" /\
   engFirst cfg = "templateHandler").

(** * Properties *)

(** ** The resource locator *)

Section Locator.

Lemma pathRE_body :
  pathRE = Js.RegExp_ true [Js.Opt Js.Any; Js.Opt Js.Any; Js.One (Js.Lit "/")].
Proof. reflexivity. Qed.

(** What the pattern of the source matches: a separator among the
    first three characters, whatever stands before it. *)
Lemma hasPath_sep_within (name : string) : hasPath name = sep_within 2 name.
Proof.
  unfold hasPath. rewrite pathRE_body. unfold Js.test; simpl Js.anchored; simpl Js.body.
  destruct name as [|c0 [|c1 [|c2 r]]]; simpl; unfold Path.is_sep;
    repeat match goal with
           | |- context [Ascii.eqb ?c "/"] => destruct (Ascii.eqb c "/")
           | |- context [Js.line_terminator ?c] => destruct (Js.line_terminator c)
           end; reflexivity.
Qed.

Lemma prefix_cons (c d : ascii) (p s : string) :
  String.prefix (String c p) (String d s) = Ascii.eqb c d && String.prefix p s.
Proof.
  simpl. destruct (Ascii.eqb_spec c d) as [->|Hne].
  - destruct (ascii_dec d d); [reflexivity | congruence].
  - destruct (ascii_dec c d); [congruence | reflexivity].
Qed.

(** The pattern with its dots escaped matches the three prefixes. *)
Lemma escaped_pattern_matches_prefixes (name : string) :
  Js.test (Js.RegExp "^\.?\.?/") name = rooted_prefix name.
Proof.
  unfold rooted_prefix.
  destruct name as [|c0 [|c1 [|c2 r]]]; cbn -[Ascii.eqb String.prefix];
    rewrite ?prefix_cons; cbn -[Ascii.eqb];
    rewrite ?(Ascii.eqb_sym "."%char), ?(Ascii.eqb_sym "/"%char);
    repeat match goal with
           | |- context [Ascii.eqb ?c ?d] =>
               destruct (Ascii.eqb_spec c d); subst; cbn -[Ascii.eqb]
           end; try reflexivity; try congruence.
  now destruct r.
Qed.

(** Names with one of the three prefixes are returned unchanged. *)
Lemma makePath_rooted_unchanged (cfg : config) (name dir : string) :
  rooted_prefix name = true -> makePath cfg name dir = name.
Proof.
  intros H. unfold makePath. rewrite hasPath_sep_within.
  rewrite <- escaped_pattern_matches_prefixes in H.
  destruct name as [|c0 [|c1 [|c2 r]]]; cbn -[Ascii.eqb] in *;
    unfold Path.is_sep, Js.line_terminator;
    repeat match goal with
           | H : context [Ascii.eqb ?c ?d] |- _ =>
               destruct (Ascii.eqb_spec c d); subst; cbn -[Ascii.eqb] in *
           end; try reflexivity; try discriminate.
Qed.

(** Names without a separator among their first three characters are
    joined under the root and the directory. *)
Lemma makePath_joined (cfg : config) (name dir : string) :
  sep_within 2 name = false ->
  makePath cfg name dir = Path.join [dirroot cfg; dir; name].
Proof.
  intros H. unfold makePath. now rewrite hasPath_sep_within, H.
Qed.

(** C3, at a name that has none of the three prefixes: the locator
    returns ["js/app.js"] unchanged, although it is neither rooted nor
    dot-relative, where joining it under the root and the public
    directory gives ["/srv/site/public/js/app.js"]. *)
Theorem makePath_short_first_segment_unchanged :
  rooted_prefix "js/app.js" = false /\
  makePath Sample.production "js/app.js" "public" = "js/app.js" /\
  Path.join [dirroot Sample.production; "public"; "js/app.js"]
    = "/srv/site/public/js/app.js" /\
  Views.publicFile Sample.online Sample.production "js/app.js" (VPrim PUndefined) init
    = Views.file Sample.online Sample.production "js/app.js" (VPrim PUndefined) init.
Proof. repeat split. Qed.

Lemma addExtension_no_extension (name ext : string) :
  Path.extname name = "" -> addExtension name ext = name +:+ "." +:+ ext.
Proof. intros H. unfold addExtension. now rewrite H. Qed.

Lemma addExtension_has_extension (name ext : string) :
  Path.extname name <> "" -> addExtension name ext = name.
Proof.
  intros H. unfold addExtension.
  destruct (String.eqb_spec (Path.extname name) ""); [contradiction | reflexivity].
Qed.

End Locator.

(** ** Options *)

Section Options.


Lemma options_or_empty_null : options_or_empty (VPrim PNull) = empty_object.
Proof. reflexivity. Qed.



End Options.

(** ** Counting capability calls *)

Section Trace.

Lemma reads_app (t u : list event) : reads (t ++ u) = reads t + reads u.
Proof.
  induction t as [|e t IH]; simpl; [reflexivity |].
  destruct e; simpl; rewrite IH; reflexivity.
Qed.

Lemma compressions_app (t u : list event) :
  compressions (t ++ u) = compressions t + compressions u.
Proof.
  induction t as [|e t IH]; simpl; [reflexivity |].
  destruct e; simpl; rewrite IH; reflexivity.
Qed.

End Trace.

(** ** The file cache *)

Section FileCache.

(** The read chain, case by case. *)
Lemma read_file_unfold (w : world) (name : string) (o : object) (type : string)
    (st : state) :
  Views.read_file w name o type st =
  match fs w name with
  | None => (Rejected (ReadError name), log (Read name) st)
  | Some file =>
      if get (prop_zip o) then
        match gzip w file with
        | None => (Rejected CompressionError, log (Gzip file) (log (Read name) st))
        | Some zipped =>
            (Resolved (if String.eqb "std" type then file else zipped),
             Views.store_file name o file (Some zipped)
               (log (Gzip file) (log (Read name) st)))
        end
      else (Resolved file, Views.store_file name o file None (log (Read name) st))
  end.
Proof.
  unfold Views.read_file, then_, readFile, zip, when, of_option.
  generalize (String.eqb "std" type); intros is_std.
  destruct (fs w name) as [file|]; simpl; [| reflexivity].
  destruct (get (prop_zip o)); simpl.
  - destruct (gzip w file); reflexivity.
  - destruct is_std; reflexivity.
Qed.

Lemma file_unfold (w : world) (cfg : config) (name : string) (options : value)
    (st : state) :
  Views.file w cfg name options st =
  match files st !! name with
  | Some e =>
      if cache cfg then
        match Views.representation e (file_type options) with
        | Some b => (Resolved b, st)
        | None =>
            Views.beside w (default [] (ent_std e)) (Views.store_zip name)
              (Views.read_file w name (file_options options) (file_type options)) st
        end
      else Views.read_file w name (file_options options) (file_type options) st
  | None => Views.read_file w name (file_options options) (file_type options) st
  end.
Proof. reflexivity. Qed.

Lemma trace_store_file name o file zipped st :
  trace (Views.store_file name o file zipped st) = trace st.
Proof. unfold Views.store_file. destruct (get (prop_cache o)); reflexivity. Qed.


(** The detached compression of a cached raw buffer: one gzip call, and
    its outcome, if any, added to the entry. *)
Lemma detached_zip_unfold (w : world) (name : string) (data : bytes) (st : state) :
  detached (zip w data .tap (Views.store_zip name)) st =
  match gzip w data with
  | Some zipped => Views.store_zip name zipped (log (Gzip data) st)
  | None => log (Gzip data) st
  end.
Proof.
  unfold detached, tap, then_, zip, of_option.
  destruct (gzip w data); reflexivity.
Qed.

Lemma trace_detached_zip (w : world) (name : string) (data : bytes) (st : state) :
  trace (detached (zip w data .tap (Views.store_zip name)) st)
    = trace st ++ [Gzip data].
Proof. rewrite detached_zip_unfold. destruct (gzip w data); reflexivity. Qed.

Lemma trace_read_file (w : world) (name : string) (o : object) (type : string)
    (st : state) :
  trace (snd (Views.read_file w name o type st)) =
  trace st ++ Read name ::
    match fs w name with
    | Some file => if get (prop_zip o) then [Gzip file] else []
    | None => []
    end.
Proof.
  rewrite read_file_unfold.
  destruct (fs w name) as [file|]; simpl; [| reflexivity].
  destruct (get (prop_zip o)); simpl.
  - destruct (gzip w file); simpl; rewrite ?trace_store_file; simpl;
      rewrite <- app_assoc; reflexivity.
  - rewrite trace_store_file. reflexivity.
Qed.

(** The two orders of [Views.beside]. *)
Lemma beside_unfold {A : Type} (w : world) (data : bytes)
    (store : bytes -> state -> state) (main : promise A) (st : state) :
  Views.beside w data store main st =
  if detached_last w then
    (fst (main (log (Gzip data) st)),
     match gzip w data with
     | Some zipped => store zipped (snd (main (log (Gzip data) st)))
     | None => snd (main (log (Gzip data) st))
     end)
  else
    main match gzip w data with
         | Some zipped => store zipped (log (Gzip data) st)
         | None => log (Gzip data) st
         end.
Proof.
  unfold Views.beside. destruct (detached_last w).
  - destruct (main (log (Gzip data) st)); reflexivity.
  - unfold detached, tap, then_, zip, of_option. destruct (gzip w data); reflexivity.
Qed.

(** What holds of the store before a fall-through, is kept by the gzip
    call, by the store of the compressed bytes and by the read chain,
    holds after it, in whichever order the two chains settle. *)
Lemma beside_read_file_ind (P : state -> Prop) (w : world) (name : string)
    (data : bytes) (o : object) (type : string) (st : state) :
  P st ->
  (forall s, P s -> P (log (Gzip data) s)) ->
  (forall s zipped, gzip w data = Some zipped -> P s ->
                    P (Views.store_zip name zipped s)) ->
  (forall s, P s -> P (snd (Views.read_file w name o type s))) ->
  P (snd (Views.beside w data (Views.store_zip name) (Views.read_file w name o type) st)).
Proof.
  intros Hst Hlog Hzip Hread. rewrite beside_unfold.
  destruct (detached_last w); cbn [snd];
    destruct (gzip w data) as [zipped|] eqn:Hg; auto.
Qed.

Lemma trace_store_zip name zipped st :
  trace (Views.store_zip name zipped st) = trace st.
Proof. reflexivity. Qed.

Lemma trace_beside_read_file (w : world) (name : string) (data : bytes) (o : object)
    (type : string) (st : state) :
  trace (snd (Views.beside w data (Views.store_zip name)
                (Views.read_file w name o type) st)) =
  trace st ++ Gzip data :: Read name ::
    match fs w name with
    | Some file => if get (prop_zip o) then [Gzip file] else []
    | None => []
    end.
Proof.
  rewrite beside_unfold.
  destruct (detached_last w); cbn [snd]; destruct (gzip w data);
    rewrite ?trace_store_zip, trace_read_file; rewrite ?trace_store_zip;
    simpl; rewrite <- app_assoc; reflexivity.
Qed.


(** C1, on every entry that holds the raw representation only: a call
    that asks for the compressed one, with the cache enabled, starts a
    compression of the cached bytes and then reads the file again and
    compresses what it read. *)
Theorem file_raw_only_entry_reads_again (w : world) (cfg : config) (name : string)
    (options : value) (st : state) (raw : bytes) :
  cache cfg = true ->
  files st !! name = Some (Entry (Some raw) None) ->
  get (prop_zip (file_options options)) = true ->
  trace (snd (Views.file w cfg name options st)) =
  trace st ++ Gzip raw :: Read name ::
    match fs w name with
    | Some file => [Gzip file]
    | None => []
    end.
Proof.
  intros Hc He Hz. rewrite file_unfold, He, Hc.
  unfold file_type. rewrite Hz. simpl.
  rewrite trace_beside_read_file, Hz. reflexivity.
Qed.

Lemma file_raw_only_entry_witness :
  let p := "/srv/site/public/app.js" in
  let st := snd (Views.file Sample.online Sample.production p Sample.no_zip init) in
  cache Sample.production = true /\
  files st !! p = Some (Entry (Some Sample.hi) None) /\
  get (prop_zip (file_options (VPrim PUndefined))) = true /\
  trace (snd (Views.file Sample.online Sample.production p (VPrim PUndefined) st))
    = trace st ++ [Gzip Sample.hi; Read p; Gzip Sample.hi] /\
  reads (trace (snd (Views.file Sample.online Sample.production p (VPrim PUndefined) st)))
    = S (reads (trace st)) /\
  compressions
      (trace (snd (Views.file Sample.online Sample.production p (VPrim PUndefined) st)))
    = 2 + compressions (trace st).
Proof.
  cbv zeta.
  split; [reflexivity |]. split; [vm_compute; reflexivity |].
  split; [reflexivity |].
  rewrite (file_raw_only_entry_reads_again Sample.online Sample.production
             "/srv/site/public/app.js" (VPrim PUndefined) _ Sample.hi);
    [| reflexivity | vm_compute; reflexivity | reflexivity].
  repeat split.
Defined.

(** What a resolved read chain leaves behind when [options.cache] is
    truthy: an entry with the raw bytes, and with the compressed bytes
    when they were asked for. *)
Lemma read_file_resolved (w : world) (name : string) (options : value)
    (st st1 : state) (b : bytes) :
  get (prop_cache (file_options options)) = true ->
  Views.read_file w name (file_options options) (file_type options) st
    = (Resolved b, st1) ->
  exists e, files st1 !! name = Some e /\
            is_Some (ent_std e) /\
            Views.representation e (file_type options) = Some b.
Proof.
  intros Hc. rewrite read_file_unfold. unfold file_type, Views.store_file.
  rewrite Hc.
  destruct (fs w name) as [file|]; [| discriminate].
  destruct (get (prop_zip (file_options options))).
  - destruct (gzip w file) as [zipped|]; [| discriminate].
    intros [= <- <-]. eexists. simpl. rewrite lookup_insert_eq.
    split; [reflexivity |]. split; [eauto | reflexivity].
  - intros [= <- <-]. eexists. simpl. rewrite lookup_insert_eq.
    split; [reflexivity |]. split; [eauto | reflexivity].
Qed.

Lemma reads_read_file (w : world) (name : string) (o : object) (type : string)
    (st : state) :
  reads (trace (snd (Views.read_file w name o type st))) = S (reads (trace st)).
Proof.
  rewrite trace_read_file, reads_app. simpl.
  destruct (fs w name); [destruct (get (prop_zip o)) |]; simpl; lia.
Qed.

(** Every call makes at most one read. *)
Lemma reads_file_le (w : world) (cfg : config) (name : string) (options : value)
    (st : state) :
  reads (trace (snd (Views.file w cfg name options st))) <= S (reads (trace st)).
Proof.
  rewrite file_unfold.
  destruct (files st !! name) as [e|]; [destruct (cache cfg) |].
  - destruct (Views.representation e (file_type options)); simpl; [lia |].
    rewrite trace_beside_read_file, reads_app. simpl.
    destruct (fs w name); [destruct (get _) |]; simpl; lia.
  - rewrite reads_read_file. lia.
  - rewrite reads_read_file. lia.
Qed.

(** A resolved call with caching on, that finds no entry for its path
    or an entry with the representation it asks for, leaves an entry
    that serves the same request. *)
Lemma file_resolved_entry (w : world) (cfg : config) (name : string)
    (options : value) (st st1 : state) (b : bytes) :
  cache cfg = true ->
  get (prop_cache (file_options options)) = true ->
  (forall e, files st !! name = Some e ->
             is_Some (Views.representation e (file_type options))) ->
  Views.file w cfg name options st = (Resolved b, st1) ->
  exists e, files st1 !! name = Some e /\
            Views.representation e (file_type options) = Some b.
Proof.
  intros Hg Hc Hserves. rewrite file_unfold, Hg.
  destruct (files st !! name) as [e|] eqn:He.
  - destruct (Hserves e eq_refl) as [b' Hr]. rewrite Hr.
    intros [= <- <-]. eauto.
  - intros H. apply read_file_resolved in H as (e' & ? & _ & ?); eauto.
Qed.

Lemma representation_store_zip (e : entry) (zipped : bytes) (type : string) :
  is_Some (Views.representation e type) ->
  is_Some (Views.representation (Entry (ent_std e) (Some (Buffer zipped))) type).
Proof.
  unfold Views.representation. destruct (String.eqb type "zip"); simpl; eauto.
Qed.

(** A resolved call with caching on leaves, from any store, an entry
    that holds the representation asked for; after a fall-through it
    need not be the bytes the call resolved to. *)
Lemma file_resolved_serves (w : world) (cfg : config) (name : string)
    (options : value) (st st1 : state) (b : bytes) :
  cache cfg = true ->
  get (prop_cache (file_options options)) = true ->
  Views.file w cfg name options st = (Resolved b, st1) ->
  exists e, files st1 !! name = Some e /\
            is_Some (Views.representation e (file_type options)).
Proof.
  intros Hg Hc. rewrite file_unfold, Hg.
  assert (Hread : forall s s1,
            Views.read_file w name (file_options options) (file_type options) s
              = (Resolved b, s1) ->
            exists e, files s1 !! name = Some e /\
                      is_Some (Views.representation e (file_type options))).
  { intros s s1 H. apply read_file_resolved in H as (e' & ? & _ & ?); eauto. }
  destruct (files st !! name) as [e|] eqn:He; [| apply Hread].
  destruct (Views.representation e (file_type options)) as [b'|] eqn:Hr.
  - intros [= <- <-]. eauto.
  - rewrite beside_unfold. destruct (detached_last w); [| apply Hread].
    destruct (Views.read_file w name _ _ (log _ st)) as [r s1] eqn:Hmain.
    cbn [fst snd]. intros [= -> <-].
    destruct (Hread _ _ Hmain) as (e' & He' & Hr').
    destruct (gzip w _) as [zipped|]; [| eauto].
    exists (Entry (ent_std e') (Some (Buffer zipped))). split.
    + unfold Views.store_zip, set_files. simpl. rewrite lookup_alter_eq, He'.
      reflexivity.
    + now apply representation_store_zip.
Qed.

(** Off the path of the fall-through the two calls agree: with the
    cache flag on and [options.cache] truthy, from a store in which the
    path has no entry or an entry with the representation asked for, a
    second call with the same options, after a first one that resolved,
    resolves to the same bytes without touching the outside world,
    whatever has become of it; the two calls together make at most one
    read. *)
Lemma file_twice_reads_at_most_once (w1 w2 : world) (cfg : config)
    (name : string) (options : value) (st st1 : state) (b : bytes) :
  cache cfg = true ->
  get (prop_cache (file_options options)) = true ->
  (forall e, files st !! name = Some e ->
             is_Some (Views.representation e (file_type options))) ->
  Views.file w1 cfg name options st = (Resolved b, st1) ->
  Views.file w2 cfg name options st1 = (Resolved b, st1) /\
  reads (trace (snd (Views.file w2 cfg name options st1))) <= S (reads (trace st)).
Proof.
  intros Hg Hc Hserves H1.
  assert (H2 : Views.file w2 cfg name options st1 = (Resolved b, st1)).
  { destruct (file_resolved_entry _ _ _ _ _ _ _ Hg Hc Hserves H1) as (e & He & Hr).
    rewrite file_unfold, He, Hg, Hr. reflexivity. }
  split; [exact H2 |].
  rewrite H2. simpl.
  pose proof (reads_file_le w1 cfg name options st) as Hle.
  rewrite H1 in Hle. exact Hle.
Qed.

Lemma file_twice_cold_start :
  let p := "/srv/site/public/app.js" in
  let zipped := [Byte.x1f; Byte.x8b; Byte.x68; Byte.x69] in
  let st1 := snd (Views.file Sample.online Sample.production p (VPrim PUndefined) init) in
  Views.file Sample.online Sample.production p (VPrim PUndefined) init
    = (Resolved zipped, st1) /\
  trace st1 = [Read p; Gzip Sample.hi] /\
  Views.file Sample.wiped Sample.production p (VPrim PUndefined) st1
    = (Resolved zipped, st1) /\
  reads (trace (snd (Views.file Sample.wiped Sample.production p (VPrim PUndefined) st1)))
    <= 1.
Proof.
  cbv zeta.
  split; [reflexivity |]. split; [reflexivity |].
  apply (file_twice_reads_at_most_once Sample.online Sample.wiped Sample.production
           "/srv/site/public/app.js" (VPrim PUndefined) init);
    try reflexivity.
  intros e He. vm_compute in He. discriminate.
Defined.

(** C5 fails on an entry that holds the raw representation only, of a
    file that has been rewritten since it was cached.  Two calls in
    sequence ask for the compressed representation, with the cache flag
    on and [options.cache] truthy.  The first starts the compression of
    the cached bytes and falls through to the read; when that
    compression settles after the read chain, the call resolves to the
    compression of the new bytes and leaves the new raw bytes beside
    the compression of the old ones.  The second call is a hit: it
    makes no capability call and resolves to the compression of the
    old bytes.  One read, and two different contents. *)
Theorem file_twice_stale_compression (w w' : world) (cfg : config) (name : string)
    (options : value) (st : state) (old new zipped_old zipped_new : bytes) :
  cache cfg = true ->
  get (prop_cache (file_options options)) = true ->
  get (prop_zip (file_options options)) = true ->
  files st !! name = Some (Entry (Some old) None) ->
  detached_last w = true ->
  fs w name = Some new ->
  gzip w old = Some zipped_old ->
  gzip w new = Some zipped_new ->
  let first := Views.file w cfg name options st in
  fst first = Resolved zipped_new /\
  files (snd first) !! name = Some (Entry (Some new) (Some zipped_old)) /\
  trace (snd first) = trace st ++ [Gzip old; Read name; Gzip new] /\
  Views.file w' cfg name options (snd first) = (Resolved zipped_old, snd first).
Proof.
  intros Hg Hc Hz He Hlast Hfs Hold Hnew. cbv zeta.
  assert (Hfirst : Views.file w cfg name options st
            = (Resolved zipped_new,
               Views.store_zip name zipped_old
                 (Views.store_file name (file_options options) new (Some zipped_new)
                    (log (Gzip new) (log (Read name) (log (Gzip old) st)))))).
  { rewrite file_unfold, He, Hg. unfold file_type. rewrite Hz. simpl.
    rewrite beside_unfold, Hlast, read_file_unfold, Hfs, Hz, Hnew, Hold.
    reflexivity. }
  assert (Hentry : files (snd (Views.file w cfg name options st)) !! name
                   = Some (Entry (Some new) (Some zipped_old))).
  { rewrite Hfirst. unfold Views.store_file. rewrite Hc, Hz. simpl.
    rewrite lookup_alter_eq, lookup_insert_eq. reflexivity. }
  split; [now rewrite Hfirst |]. split; [exact Hentry |]. split.
  - rewrite Hfirst. cbn [snd]. rewrite trace_store_zip, trace_store_file. simpl.
    rewrite <- !app_assoc. reflexivity.
  - rewrite file_unfold, Hentry, Hg. unfold file_type. rewrite Hz. reflexivity.
Qed.

Lemma file_twice_stale_witness :
  let p := "/srv/site/public/app.js" in
  let st := snd (Views.file Sample.online Sample.production p Sample.no_zip init) in
  let first := Views.file Scenario.rewritten Sample.production p (VPrim PUndefined) st in
  files st !! p = Some (Entry (Some Sample.hi) None) /\
  fs Scenario.rewritten p = Some [Byte.x79; Byte.x6f] /\
  fst first = Resolved [Byte.x1f; Byte.x8b; Byte.x79; Byte.x6f] /\
  fst (Views.file Scenario.rewritten Sample.production p (VPrim PUndefined) (snd first))
    = Resolved [Byte.x1f; Byte.x8b; Byte.x68; Byte.x69] /\
  reads (trace (snd (Views.file Scenario.rewritten Sample.production p (VPrim PUndefined)
                       (snd first))))
    = S (reads (trace st)).
Proof.
  cbv zeta.
  assert (He : files (snd (Views.file Sample.online Sample.production
                             "/srv/site/public/app.js" Sample.no_zip init))
                 !! "/srv/site/public/app.js"
               = Some (Entry (Some Sample.hi) None))
    by (vm_compute; reflexivity).
  destruct (file_twice_stale_compression Scenario.rewritten Scenario.rewritten
              Sample.production "/srv/site/public/app.js" (VPrim PUndefined) _
              Sample.hi [Byte.x79; Byte.x6f]
              [Byte.x1f; Byte.x8b; Byte.x68; Byte.x69]
              [Byte.x1f; Byte.x8b; Byte.x79; Byte.x6f]
              eq_refl eq_refl eq_refl He eq_refl eq_refl eq_refl eq_refl)
    as (Hfirst & _ & Htrace & Hsecond).
  split; [exact He |]. split; [reflexivity |]. split; [exact Hfirst |].
  rewrite Hsecond. split; [reflexivity |].
  cbn [snd]. rewrite Htrace, reads_app. simpl. lia.
Defined.

(** When the compression of the cached bytes settles first, the read
    chain overwrites its outcome and the two calls agree. *)
Lemma file_twice_settling_first :
  let p := "/srv/site/public/app.js" in
  let st := snd (Views.file Sample.online Sample.production p Sample.no_zip init) in
  let first := Views.file Scenario.rewritten_early Sample.production p
                 (VPrim PUndefined) st in
  fst first = Resolved [Byte.x1f; Byte.x8b; Byte.x79; Byte.x6f] /\
  Views.file Scenario.rewritten_early Sample.production p (VPrim PUndefined) (snd first)
    = (Resolved [Byte.x1f; Byte.x8b; Byte.x79; Byte.x6f], snd first).
Proof. cbv zeta. split; vm_compute; reflexivity. Qed.

End FileCache.

(** ** The template cache *)

Section TemplateCache.

(** The read-and-render chain, case by case. *)
Lemma render_file_unfold (w : world) (cfg : config) (name : string)
    (vars : option (gmap string string)) (o : object) (st : state) :
  Views.render_file w cfg name vars o st =
  let loc := makePath cfg name (dirviews cfg) in
  match fs w loc with
  | None => (Rejected (ReadError loc), log (Read loc) st)
  | Some b =>
      match render w (utf8 w b) (jade_params cfg name vars) with
      | None => (Rejected RenderError, log (Render loc) (log (Read loc) st))
      | Some html =>
          (Resolved (TString html),
           (if get (prop_cache o)
            then set_templates (insert name (TString html))
            else fun s => s) (log (Render loc) (log (Read loc) st)))
      end
  end.
Proof.
  unfold Views.render_file, readFile_utf8, tap, then_, readFile, try_render,
    when, of_option, jade_params.
  cbv zeta. destruct (fs w _) as [b|]; simpl; [| reflexivity].
  destruct (render w _ _); reflexivity.
Qed.

Lemma jade_unfold (w : world) (cfg : config) (name : string)
    (vars : option (gmap string string)) (options : value) (st : state) :
  Views.jade w cfg name vars options st =
  let key := addExtension name "jade" in
  match templates st !! key with
  | Some t =>
      if (truthy_tvalue t && cache cfg)%bool then (Resolved t, st)
      else Views.render_file w cfg key vars (jade_options options) st
  | None => Views.render_file w cfg key vars (jade_options options) st
  end.
Proof. reflexivity. Qed.

Lemma handlebars_unfold (w : world) (cfg : config) (name : string)
    (vars : option (gmap string string)) (st : state) :
  Views.handlebars w cfg name vars st =
  let key := addExtension name "jade" in
  match Views.markup w cfg key vars st with
  | (Rejected e, st1) => (Rejected e, st1)
  | (Resolved html, st1) =>
      match compile w html with
      | None => (Rejected CompileError, log (Compile html) st1)
      | Some h =>
          (Resolved (TFunction h),
           set_templates (insert key (TFunction h)) (log (Compile html) st1))
      end
  end.
Proof.
  unfold Views.handlebars, tap, then_, try_compile, of_option. cbv zeta.
  destruct (Views.markup w cfg _ vars st) as [[html|e] st1]; [| reflexivity].
  simpl. destruct (compile w html); reflexivity.
Qed.

Lemma markup_unfold (w : world) (cfg : config) (name : string)
    (vars : option (gmap string string)) (st : state) :
  Views.markup w cfg name vars st =
  if String.eqb (Path.extname name) ".html" then
    match fs w (makePath cfg name (dirviews cfg)) with
    | Some b => (Resolved (TBuffer b), log (Read (makePath cfg name (dirviews cfg))) st)
    | None => (Rejected (ReadError (makePath cfg name (dirviews cfg))),
               log (Read (makePath cfg name (dirviews cfg))) st)
    end
  else Views.jade w cfg name vars (VPrim (PBool false)) st.
Proof.
  unfold Views.markup, then_, readFile, when, of_option.
  destruct (String.eqb (Path.extname name) ".html"); [| reflexivity].
  destruct (fs w _); reflexivity.
Qed.

(** The render functions never touch the file cache. *)
Lemma files_render_file w cfg name vars o st :
  files (snd (Views.render_file w cfg name vars o st)) = files st.
Proof.
  rewrite render_file_unfold. cbv zeta.
  destruct (fs w _); [destruct (render w _ _) |]; simpl; try reflexivity.
  destruct (get (prop_cache o)); reflexivity.
Qed.

Lemma files_jade w cfg name vars options st :
  files (snd (Views.jade w cfg name vars options st)) = files st.
Proof.
  rewrite jade_unfold. cbv zeta.
  destruct (templates st !! _) as [t|];
    [destruct (truthy_tvalue t && cache cfg)%bool |];
    simpl; rewrite ?files_render_file; reflexivity.
Qed.

Lemma files_markup w cfg name vars st :
  files (snd (Views.markup w cfg name vars st)) = files st.
Proof.
  rewrite markup_unfold.
  destruct (String.eqb _ _); [destruct (fs w _); reflexivity |].
  apply files_jade.
Qed.

Lemma files_handlebars w cfg name vars st :
  files (snd (Views.handlebars w cfg name vars st)) = files st.
Proof.
  rewrite handlebars_unfold. cbv zeta.
  pose proof (files_markup w cfg (addExtension name "jade") vars st) as H.
  destruct (Views.markup w cfg _ vars st) as [[html|e] st1]; simpl in *;
    [destruct (compile w html) |]; simpl; exact H.
Qed.

(** A rejected first-pass call leaves both caches as they were. *)
Lemma jade_rejected_unchanged w cfg name vars options st e st' :
  Views.jade w cfg name vars options st = (Rejected e, st') ->
  files st' = files st /\ templates st' = templates st.
Proof.
  rewrite jade_unfold. cbv zeta.
  assert (Hr : forall key, Views.render_file w cfg key vars (jade_options options) st
                 = (Rejected e, st') ->
               files st' = files st /\ templates st' = templates st).
  { intros key. rewrite render_file_unfold. cbv zeta.
    destruct (fs w _); [destruct (render w _ _) |]; intros [= <- <-] || intros [=];
      split; reflexivity. }
  destruct (templates st !! _) as [t|];
    [destruct (truthy_tvalue t && cache cfg)%bool |]; try discriminate; apply Hr.
Qed.

(** A bare [false] in the place of the options leaves [cache] at its
    default, [true]. *)
Lemma jade_false_is_cache_true w cfg name vars st :
  Views.jade w cfg name vars (VPrim (PBool false)) st =
  Views.jade w cfg name vars (VObject (Object (Some (PBool true)) None None)) st.
Proof. reflexivity. Qed.

(** What a resolved read-and-render chain stores when [options.cache]
    is truthy. *)
Lemma render_file_resolved w cfg key vars o st t st' :
  get (prop_cache o) = true ->
  Views.render_file w cfg key vars o st = (Resolved t, st') ->
  (exists html, t = TString html) /\ templates st' = <[key := t]> (templates st).
Proof.
  intros Hc. rewrite render_file_unfold, Hc. cbv zeta.
  destruct (fs w _); [destruct (render w _ _) as [html|] |]; intros [= <- <-].
  split; [eauto | reflexivity].
Qed.

(** C2, at the name ["app"]: the first-pass call made by the
    second-pass renderer passes [false] where the options go, which is
    the call without options; it stores the rendered markup under
    ["app.jade"], where it stays when the second pass rejects. *)
Theorem handlebars_first_pass_output_is_cached :
  let st1 := snd (Views.markup Sample.online Sample.development "app.jade" None init) in
  let out := Views.handlebars Sample.strict Sample.development "app" None init in
  Views.markup Sample.online Sample.development "app.jade" None init
    = Views.jade Sample.online Sample.development "app.jade" None (VPrim PUndefined) init /\
  jade_options (VPrim (PBool false)) = Object (Some (PBool true)) None None /\
  templates st1 !! "app.jade" = Some (TString "<b>hi</b>") /\
  fst out = Rejected CompileError /\
  templates (snd out) !! "app.jade" = Some (TString "<b>hi</b>").
Proof. cbv zeta. repeat split; vm_compute; reflexivity. Qed.

(** C4: both passes store into the one map [templates], under the name
    with the extension enforced.  A second-pass call that resolves
    leaves its compiled function in that slot, whatever was there; a
    first-pass call that resolves after a read, with [options.cache]
    truthy, leaves its markup in the same slot, whatever was there. *)
Theorem templates_shared_by_both_passes (w : world) (cfg : config) (name : string)
    (vars : option (gmap string string)) :
  let key := addExtension name "jade" in
  (forall st f st',
     Views.handlebars w cfg name vars st = (Resolved f, st') ->
     (exists h, f = TFunction h) /\
     templates st' = <[key := f]> (templates (snd (Views.markup w cfg key vars st))) /\
     templates st' !! key = Some f) /\
  (forall options st t st',
     get (prop_cache (jade_options options)) = true ->
     (forall prev, templates st !! key = Some prev ->
                   (truthy_tvalue prev && cache cfg)%bool = false) ->
     Views.jade w cfg name vars options st = (Resolved t, st') ->
     (exists html, t = TString html) /\
     templates st' = <[key := t]> (templates st) /\
     templates st' !! key = Some t).
Proof.
  cbv zeta. split.
  - intros st f st'. rewrite handlebars_unfold. cbv zeta.
    destruct (Views.markup w cfg _ vars st) as [[html|e] st1]; [| discriminate].
    destruct (compile w html) as [h|]; [| discriminate].
    intros [= <- <-]. simpl. split; [eauto |]. split; [reflexivity |].
    apply lookup_insert_eq.
  - intros options st t st' Hc Hmiss. rewrite jade_unfold. cbv zeta.
    destruct (templates st !! _) as [prev|] eqn:Hp.
    + rewrite (Hmiss prev eq_refl). intros H.
      destruct (render_file_resolved _ _ _ _ _ _ _ _ Hc H) as [Ht Hs].
      split; [exact Ht |]. split; [exact Hs |]. rewrite Hs. apply lookup_insert_eq.
    + intros H.
      destruct (render_file_resolved _ _ _ _ _ _ _ _ Hc H) as [Ht Hs].
      split; [exact Ht |]. split; [exact Hs |]. rewrite Hs. apply lookup_insert_eq.
Qed.

Lemma templates_shared_witness :
  let first := Views.jade Sample.online Sample.development "app" None (VPrim PUndefined) in
  let second := Views.handlebars Sample.online Sample.development "app" None in
  let st1 := snd (first init) in
  let st2 := snd (second st1) in
  let st3 := snd (first st2) in
  templates st1 !! "app.jade" = Some (TString "<b>hi</b>") /\
  templates st2 !! "app.jade" = Some (TFunction "template:<b>hi</b>") /\
  templates st3 !! "app.jade" = Some (TString "<b>hi</b>").
Proof.
  cbv zeta.
  destruct (templates_shared_by_both_passes Sample.online Sample.development "app" None)
    as [Hsecond Hfirst].
  split; [vm_compute; reflexivity |]. split.
  - assert (H : Views.handlebars Sample.online Sample.development "app" None
                 (snd (Views.jade Sample.online Sample.development "app" None
                         (VPrim PUndefined) init))
               = (Resolved (TFunction "template:<b>hi</b>"),
                  snd (Views.handlebars Sample.online Sample.development "app" None
                         (snd (Views.jade Sample.online Sample.development "app" None
                                 (VPrim PUndefined) init)))))
      by (vm_compute; reflexivity).
    exact (proj2 (proj2 (Hsecond _ _ _ H))).
  - assert (H : Views.jade Sample.online Sample.development "app" None (VPrim PUndefined)
                 (snd (Views.handlebars Sample.online Sample.development "app" None
                         (snd (Views.jade Sample.online Sample.development "app" None
                                 (VPrim PUndefined) init))))
               = (Resolved (TString "<b>hi</b>"),
                  snd (Views.jade Sample.online Sample.development "app" None
                         (VPrim PUndefined)
                         (snd (Views.handlebars Sample.online Sample.development "app"
                                 None
                                 (snd (Views.jade Sample.online Sample.development "app"
                                         None (VPrim PUndefined) init)))))))
      by (vm_compute; reflexivity).
    refine (proj2 (proj2 (Hfirst (VPrim PUndefined) _ _ _ eq_refl _ H))).
    intros prev _. apply andb_false_r.
Defined.

End TemplateCache.

(** ** The process-wide flag *)

Section ChainsAreFresh.

Variable w : world.

Lemma fresh_read_file_chain (name : string) (o : object) (type : string) (st : state) :
  fresh_read (Views.read_file w name o type) st.
Proof.
  unfold fresh_read. split; [| split].
  - rewrite !read_file_unfold.
    destruct (fs w name) as [file|]; [| reflexivity].
    destruct (get (prop_zip o)); [destruct (gzip w file) |]; reflexivity.
  - rewrite !trace_read_file. reflexivity.
  - rewrite reads_read_file. reflexivity.
Qed.

Lemma trace_render_file cfg key vars o st :
  trace (snd (Views.render_file w cfg key vars o st)) =
  trace st ++ Read (makePath cfg key (dirviews cfg)) ::
    match fs w (makePath cfg key (dirviews cfg)) with
    | Some _ => [Render (makePath cfg key (dirviews cfg))]
    | None => []
    end.
Proof.
  rewrite render_file_unfold. cbv zeta.
  destruct (fs w _); [destruct (render w _ _) |]; simpl;
    try destruct (get (prop_cache o)); simpl; rewrite <- ?app_assoc; reflexivity.
Qed.

Lemma fresh_read_render_chain cfg key vars o st :
  fresh_read (Views.render_file w cfg key vars o) st.
Proof.
  unfold fresh_read. split; [| split].
  - rewrite !render_file_unfold. cbv zeta.
    destruct (fs w _); [destruct (render w _ _) |]; reflexivity.
  - rewrite !trace_render_file. reflexivity.
  - rewrite trace_render_file. simpl. destruct (fs w _); reflexivity.
Qed.

End ChainsAreFresh.

Section CacheDisabled.

Variable cfg : config.
Hypothesis cache_off : cache cfg = false.

Lemma file_cache_off w name options st :
  Views.file w cfg name options st
    = Views.read_file w name (file_options options) (file_type options) st.
Proof.
  rewrite file_unfold, cache_off. destruct (files st !! name); reflexivity.
Qed.

Lemma jade_cache_off w name vars options st :
  Views.jade w cfg name vars options st
    = Views.render_file w cfg (addExtension name "jade") vars (jade_options options) st.
Proof.
  rewrite jade_unfold, cache_off. cbv zeta.
  destruct (templates st !! _); [rewrite andb_false_r |]; reflexivity.
Qed.

Lemma fresh_read_file w name options st :
  fresh_read (Views.file w cfg name options) st.
Proof.
  pose proof (fresh_read_file_chain w name (file_options options)
                (file_type options) st) as Hr.
  unfold fresh_read in *. rewrite !file_cache_off. exact Hr.
Qed.

Lemma fresh_read_jade w name vars options st :
  fresh_read (Views.jade w cfg name vars options) st.
Proof.
  pose proof (fresh_read_render_chain w cfg (addExtension name "jade") vars
                (jade_options options) st) as Hr.
  unfold fresh_read in *. rewrite !jade_cache_off. exact Hr.
Qed.

Lemma fresh_read_markup w key vars st :
  fresh_read (Views.markup w cfg key vars) st.
Proof.
  unfold fresh_read. rewrite !markup_unfold.
  destruct (String.eqb (Path.extname key) ".html").
  - destruct (fs w _); repeat split.
  - apply fresh_read_jade.
Qed.

Lemma fresh_read_handlebars w name vars st :
  fresh_read (Views.handlebars w cfg name vars) st.
Proof.
  destruct (fresh_read_markup w (addExtension name "jade") vars st)
    as (Hout & Htr & Hn).
  unfold fresh_read. rewrite !handlebars_unfold. cbv zeta.
  destruct (Views.markup w cfg _ vars st) as [[html|e] st1],
           (Views.markup w cfg _ vars init) as [[html0|e0] st0];
    simpl in *; try discriminate.
  - injection Hout as ->.
    destruct (compile w html0); simpl; rewrite Htr, reads_app, Hn, <- app_assoc;
      repeat split.
  - injection Hout as ->. repeat split; assumption.
Qed.

(** C6: with the process-wide flag off, every call of the file
    accessor and of the two renderers is a miss: whatever the caches
    hold, its outcome and its capability calls are those of the call on
    empty caches, with exactly one read.  Two consecutive calls for the
    same path make two reads, and the second is not served by what the
    first stored. *)
Theorem cache_disabled_every_call_reads :
  (forall w name options st, fresh_read (Views.file w cfg name options) st) /\
  (forall w name options st, fresh_read (Views.publicFile w cfg name options) st) /\
  (forall w name vars options st, fresh_read (Views.jade w cfg name vars options) st) /\
  (forall w name vars st, fresh_read (Views.handlebars w cfg name vars) st) /\
  (forall w1 w2 name options st,
     let st1 := snd (Views.file w1 cfg name options st) in
     let second := Views.file w2 cfg name options in
     reads (trace (snd (second st1))) = 2 + reads (trace st) /\
     fst (second st1) = fst (second init)).
Proof.
  split; [exact fresh_read_file |].
  split; [intros; apply fresh_read_file |].
  split; [exact fresh_read_jade |].
  split; [exact fresh_read_handlebars |].
  intros w1 w2 name options st. cbv zeta.
  destruct (fresh_read_file w1 name options st) as (_ & Ht1 & Hn1).
  destruct (fresh_read_file w2 name options
              (snd (Views.file w1 cfg name options st))) as (Ho2 & Ht2 & Hn2).
  split; [| exact Ho2].
  rewrite Ht2, Ht1, !reads_app, Hn1, Hn2. lia.
Qed.

End CacheDisabled.

(** Two consecutive calls, the second on the store the first left. *)
Lemma cache_disabled_witness :
  let p := "/srv/site/public/app.js" in
  let call := Views.file Sample.online Sample.development p (VPrim PUndefined) in
  let st1 := snd (call init) in
  let st2 := snd (call st1) in
  cache Sample.development = false /\
  is_Some (files st1 !! p) /\
  fresh_read call st1 /\
  trace st2 = [Read p; Gzip Sample.hi; Read p; Gzip Sample.hi] /\
  reads (trace st2) = 2 + reads (trace init).
Proof.
  cbv zeta.
  destruct (cache_disabled_every_call_reads Sample.development eq_refl)
    as (Hfile & _ & _ & _ & Htwice).
  split; [reflexivity |].
  split; [vm_compute; eauto |].
  split; [apply Hfile |].
  split; [vm_compute; reflexivity |].
  exact (proj1 (Htwice Sample.online Sample.online "/srv/site/public/app.js"
                  (VPrim PUndefined) init)).
Defined.

(** ** Failures *)

Section Failures.

(** A rejected read chain stores nothing. *)
Lemma read_file_rejected_unchanged w name o type st e st' :
  Views.read_file w name o type st = (Rejected e, st') ->
  files st' = files st /\ templates st' = templates st.
Proof.
  rewrite read_file_unfold.
  destruct (fs w name) as [file|];
    [destruct (get (prop_zip o)); [destruct (gzip w file) |] |];
    intros [=]; subst; split; reflexivity.
Qed.

(** A rejected call of the file accessor that found no entry, or ran
    with the cache disabled, leaves both caches as they were. *)
Lemma file_rejected_on_miss_unchanged w cfg name options st e st' :
  files st !! name = None \/ cache cfg = false ->
  Views.file w cfg name options st = (Rejected e, st') ->
  files st' = files st /\ templates st' = templates st.
Proof.
  intros Hmiss. rewrite file_unfold.
  destruct Hmiss as [-> | ->].
  - apply read_file_rejected_unchanged.
  - destruct (files st !! name); apply read_file_rejected_unchanged.
Qed.

(** After a rejected first-pass call, the same call reads again. *)
Lemma jade_rejected_then_reads w w' cfg name vars options st e st' :
  Views.jade w cfg name vars options st = (Rejected e, st') ->
  reads (trace (snd (Views.jade w' cfg name vars options st')))
    = S (reads (trace st')).
Proof.
  intros H.
  destruct (jade_rejected_unchanged _ _ _ _ _ _ _ _ H) as [_ Ht].
  revert H. rewrite !jade_unfold. cbv zeta. rewrite Ht.
  destruct (templates st !! _) as [t|];
    [destruct (truthy_tvalue t && cache cfg)%bool |]; try discriminate;
    intros _; rewrite trace_render_file, reads_app; simpl;
    destruct (fs w' _); simpl; lia.
Qed.

(** C7, on an entry that holds the raw representation only, once the
    file has become unreadable: the call that asks for the compressed
    representation is rejected with the read error, yet the compressed
    bytes derived from the cached ones have been added to the entry,
    and the same call made again is served from the cache, without a
    read. *)
Theorem file_rejected_call_updates_entry :
  let p := "/srv/site/public/app.js" in
  let zipped := [Byte.x1f; Byte.x8b; Byte.x68; Byte.x69] in
  let st := snd (Views.file Sample.online Sample.production p Sample.no_zip init) in
  let out := Views.file Sample.wiped Sample.production p (VPrim PUndefined) st in
  files st !! p = Some (Entry (Some Sample.hi) None) /\
  fst out = Rejected (ReadError p) /\
  files (snd out) !! p = Some (Entry (Some Sample.hi) (Some zipped)) /\
  Views.file Sample.wiped Sample.production p (VPrim PUndefined) (snd out)
    = (Resolved zipped, snd out).
Proof. cbv zeta. repeat split; vm_compute; reflexivity. Qed.

End Failures.

(** ** Extension inference *)

Section Extension.

Lemma addExtension_jade (name : string) : addExtension name "jade" = resolved name.
Proof.
  unfold addExtension, resolved.
  destruct (String.eqb (Path.extname name) ""); reflexivity.
Qed.

(** C8, as the code has it: a name without an extension is resolved by
    appending [".jade"], whatever first-pass engine is configured, and
    a name with an extension is left unchanged; the call is either
    served from the slot of the resolved name or reads the resolved
    name under the views directory, and touches no other slot. *)
Theorem jade_resolves_with_jade_extension (w : world) (cfg : config) (name : string)
    (vars : option (gmap string string)) (options : value) (st : state) :
  let out := Views.jade w cfg name vars options st in
  (exists t, templates st !! resolved name = Some t /\ out = (Resolved t, st)) \/
  ((exists evs, trace (snd out)
                = trace st ++ Read (makePath cfg (resolved name) (dirviews cfg)) :: evs) /\
   (forall key, key <> resolved name ->
                templates (snd out) !! key = templates st !! key)).
Proof.
  cbv zeta. rewrite jade_unfold, addExtension_jade. cbv zeta.
  assert (Hread :
    (exists evs, trace (snd (Views.render_file w cfg (resolved name) vars
                               (jade_options options) st))
                 = trace st ++ Read (makePath cfg (resolved name) (dirviews cfg)) :: evs) /\
    (forall key, key <> resolved name ->
       templates (snd (Views.render_file w cfg (resolved name) vars
                         (jade_options options) st)) !! key = templates st !! key)).
  { split.
    - rewrite trace_render_file. eauto.
    - intros key Hkey. rewrite render_file_unfold. cbv zeta.
      destruct (get (prop_cache (jade_options options)));
        (destruct (fs w _); [destruct (render w _ _) |]); simpl; try reflexivity.
      apply lookup_insert_ne. congruence. }
  destruct (templates st !! resolved name) as [t|]; [| right; exact Hread].
  destruct (truthy_tvalue t && cache cfg)%bool; [left; eauto | right; exact Hread].
Qed.

(** C8, as stated, at the name ["app"] with the first-pass engine set
    to ["handlebars"]: the configured engine would give
    ["app.handlebars"], while both renderers read and cache
    ["app.jade"]. *)
Lemma jade_extension_ignores_configured_engine :
  let cfg := snd (Views.firstPass (Some "handlebars") Sample.development) in
  let st := snd (Views.jade Sample.online cfg "app" None (VPrim PUndefined) init) in
  engFirst cfg = "handlebars" /\
  Path.extname "app" = "" /\
  makePath cfg ("app" +:+ "." +:+ engFirst cfg) (dirviews cfg)
    = "/srv/site/views/app.handlebars" /\
  trace st = [Read "/srv/site/views/app.jade"; Render "/srv/site/views/app.jade"] /\
  templates st !! "app.jade" = Some (TString "<b>hi</b>") /\
  templates st !! ("app" +:+ "." +:+ engFirst cfg) = None /\
  trace (snd (Views.handlebars Sample.online cfg "app" None init))
    = [Read "/srv/site/views/app.jade"; Render "/srv/site/views/app.jade";
       Compile (TString "<b>hi</b>")].
Proof. cbv zeta. repeat split; vm_compute; reflexivity. Qed.

End Extension.

(** ** The shape of the entries *)

Section Entries.

Lemma raw_present_store_zip name zipped st :
  raw_present st -> raw_present (Views.store_zip name zipped st).
Proof.
  unfold raw_present, Views.store_zip, set_files. simpl.
  intros H k e He. apply lookup_alter_Some in He as [(-> & e0 & He0 & ->) | (_ & He)].
  - simpl. exact (H _ _ He0).
  - exact (H _ _ He).
Qed.

Lemma raw_present_store_file name o file zipped st :
  raw_present st -> raw_present (Views.store_file name o file zipped st).
Proof.
  unfold raw_present, Views.store_file, set_files.
  destruct (get (prop_cache o)); simpl; [| trivial].
  intros H. apply map_Forall_insert_2; [simpl; eauto | exact H].
Qed.

Lemma raw_present_read_file w name o type st :
  raw_present st -> raw_present (snd (Views.read_file w name o type st)).
Proof.
  intros H. rewrite read_file_unfold.
  destruct (fs w name) as [file|];
    [destruct (get (prop_zip o)); [destruct (gzip w file) |] |]; simpl;
    try apply raw_present_store_file; exact H.
Qed.

(** Each call of the file accessor keeps the raw representation in
    every entry: the entry it writes holds the bytes it read, and the
    compressed bytes are only ever added to an entry. *)
Lemma raw_present_file w cfg name options st :
  raw_present st -> raw_present (snd (Views.file w cfg name options st)).
Proof.
  intros H. rewrite file_unfold.
  destruct (files st !! name) as [e|]; [destruct (cache cfg) |];
    try (apply raw_present_read_file; exact H).
  destruct (Views.representation e (file_type options)); [exact H |].
  apply beside_read_file_ind; auto using raw_present_store_zip, raw_present_read_file.
Qed.

(** C10: in every store that calls of the library can leave behind,
    each entry of the file cache holds the raw representation; none
    holds the compressed one alone. *)
Theorem reachable_entries_hold_raw (st : state) (name : string) (e : entry) :
  reachable st ->
  files st !! name = Some e ->
  is_Some (ent_std e) /\ ~ (ent_std e = None /\ is_Some (ent_zip e)).
Proof.
  intros Hreach He.
  assert (Hinv : raw_present st).
  { clear He. induction Hreach.
    - unfold raw_present. simpl. apply map_Forall_empty.
    - apply raw_present_file, IHHreach.
    - apply raw_present_file, IHHreach.
    - unfold raw_present. rewrite files_jade. exact IHHreach.
    - unfold raw_present. rewrite files_handlebars. exact IHHreach. }
  pose proof (Hinv name e He) as [raw Hraw]. simpl in Hraw.
  split; [eauto |]. intros [Hnone _]. congruence.
Qed.

Lemma reachable_entries_witness :
  let p := "/srv/site/public/app.js" in
  let st := snd (Views.file Sample.online Sample.production p Sample.no_zip init) in
  reachable st /\
  files st !! p = Some (Entry (Some Sample.hi) None) /\
  is_Some (ent_std (Entry (Some Sample.hi) None)) /\
  ~ (ent_std (Entry (Some Sample.hi) None) = None /\
     is_Some (ent_zip (Entry (Some Sample.hi) None))).
Proof.
  cbv zeta.
  assert (Hr : reachable (snd (Views.file Sample.online Sample.production
                                 "/srv/site/public/app.js" Sample.no_zip init)))
    by (apply reach_file, reach_init).
  assert (He : files (snd (Views.file Sample.online Sample.production
                             "/srv/site/public/app.js" Sample.no_zip init))
               !! "/srv/site/public/app.js" = Some (Entry (Some Sample.hi) None))
    by (vm_compute; reflexivity).
  split; [exact Hr |]. split; [exact He |].
  exact (reachable_entries_hold_raw _ _ _ Hr He).
Defined.

End Entries.

(** * Further properties *)

(** ** More on the locator *)

Section LocatorMore.

Lemma is_sep_eq (c : ascii) : Path.is_sep c = true <-> c = "/"%char.
Proof. unfold Path.is_sep. apply Ascii.eqb_eq. Qed.

Lemma sep_within_iff (n : nat) (s : string) :
  sep_within n s = true <->
  exists before after,
    s = before +:+ "/" +:+ after /\ String.length before <= n /\ one_line before = true.
Proof.
  revert s. induction n as [|n IH]; intros s.
  - split.
    + destruct s as [|c r]; simpl; [discriminate |].
      rewrite orb_false_r, is_sep_eq. intros ->. exists "", r. repeat split. simpl. lia.
    + intros (before & after & -> & Hlen & _).
      destruct before; simpl in *; [reflexivity | lia].
  - split.
    + destruct s as [|c r]; simpl; [discriminate |].
      intros H. apply orb_true_iff in H as [H | H].
      * apply is_sep_eq in H as ->. exists "", r. repeat split. simpl. lia.
      * apply andb_true_iff in H as [Hc H].
        apply IH in H as (before & after & -> & Hlen & Hline).
        exists (String c before), after. split; [reflexivity |].
        split; [simpl; lia |]. unfold one_line in *. simpl. now rewrite Hc.
    + intros (before & after & -> & Hlen & Hline).
      destruct before as [|c before]; simpl; [reflexivity |].
      unfold one_line in Hline. simpl in Hline.
      apply andb_true_iff in Hline as [Hc Hline]. rewrite Hc. simpl.
      apply orb_true_iff. right. apply IH.
      exists before, after. split; [reflexivity |]. split; [simpl in Hlen; lia | exact Hline].
Qed.

(** X1: [hasPath] holds exactly of the names that have a separator
    after at most two characters, none of them a line terminator,
    whatever those characters are. *)
Theorem hasPath_iff_separator_within_three (name : string) :
  hasPath name = true <->
  exists before after,
    name = before +:+ "/" +:+ after /\ String.length before <= 2 /\ one_line before = true.
Proof. rewrite hasPath_sep_within. apply sep_within_iff. Qed.

(** X2: a name that begins with ["/"], ["./"] or ["../"] is its own
    location, whatever the root and the directory; the public-file
    accessor then is the file accessor on that name. *)
Theorem makePath_prefixed_name_verbatim (w : world) (cfg : config) (name dir : string)
    (options : value) (st : state) :
  rooted_prefix name = true ->
  makePath cfg name dir = name /\
  Views.publicFile w cfg name options st = Views.file w cfg name options st.
Proof.
  intros H. split; [apply makePath_rooted_unchanged, H |].
  unfold Views.publicFile. now rewrite makePath_rooted_unchanged.
Qed.

Lemma makePath_prefixed_name_witness :
  rooted_prefix "./views/app.jade" = true /\
  makePath Sample.production "./views/app.jade" "views" = "./views/app.jade" /\
  Views.publicFile Sample.online Sample.production "./views/app.jade" (VPrim PUndefined) init
    = Views.file Sample.online Sample.production "./views/app.jade" (VPrim PUndefined) init.
Proof.
  split; [reflexivity |].
  apply (makePath_prefixed_name_verbatim Sample.online Sample.production
           "./views/app.jade" "views" (VPrim PUndefined) init).
  reflexivity.
Defined.

Lemma starts_with_sep_append (a b : string) :
  Path.starts_with_sep a = true -> Path.starts_with_sep (a +:+ b) = true.
Proof. destruct a; simpl; [discriminate | trivial]. Qed.

Lemma normalize_absolute (p : string) :
  Path.starts_with_sep p = true -> Path.starts_with_sep (Path.normalize p) = true.
Proof. intros H. unfold Path.normalize. rewrite H. reflexivity. Qed.

(** X3: under a root that is absolute, the location of every name that
    is not taken for a path is absolute. *)
Theorem makePath_absolute_under_absolute_root (cfg : config) (name dir : string) :
  Path.starts_with_sep (dirroot cfg) = true ->
  hasPath name = false ->
  Path.starts_with_sep (makePath cfg name dir) = true.
Proof.
  intros Hroot Hname. unfold makePath, Path.join. rewrite Hname.
  apply normalize_absolute.
  destruct (dirroot cfg) as [|c r] eqn:Hr; [discriminate |].
  rewrite filter_cons_True by reflexivity.
  destruct (filter _ [dir; name]) as [|x l]; simpl in *; [exact Hroot |].
  exact Hroot.
Qed.

Lemma makePath_absolute_witness :
  Path.starts_with_sep (dirroot Sample.production) = true /\
  hasPath "legal/privacy.jade" = false /\
  Path.starts_with_sep (makePath Sample.production "legal/privacy.jade" "views") = true /\
  makePath Sample.production "legal/privacy.jade" "views"
    = "/srv/site/views/legal/privacy.jade".
Proof.
  split; [reflexivity |]. split; [reflexivity |].
  split; [| reflexivity].
  apply (makePath_absolute_under_absolute_root Sample.production
           "legal/privacy.jade" "views"); reflexivity.
Defined.

End LocatorMore.

(** ** The extension, once added *)

Section ExtensionAdded.

Lemma list_ascii_of_string_app (a b : string) :
  list_ascii_of_string (a +:+ b) = list_ascii_of_string a ++ list_ascii_of_string b.
Proof. induction a as [|c a IH]; simpl; [reflexivity | now rewrite IH]. Qed.

(** The characters of an extension hide neither a separator nor a dot. *)
Lemma until_sep_plain (l rest : list ascii) :
  forallb (fun c => negb (Ascii.eqb c "." || Path.is_sep c)) l = true ->
  Path.until_sep (l ++ rest) = l ++ Path.until_sep rest.
Proof.
  induction l as [|c l IH]; simpl; [reflexivity |].
  intros H. apply andb_true_iff in H as [Hc H].
  apply negb_true_iff, orb_false_iff in Hc as [_ ->]. now rewrite IH.
Qed.

Lemma cut_at_dot_plain (l acc rest : list ascii) :
  forallb (fun c => negb (Ascii.eqb c "." || Path.is_sep c)) l = true ->
  Path.cut_at_dot acc (l ++ "."%char :: rest) = Some (rev l ++ acc, rest).
Proof.
  revert acc. induction l as [|c l IH]; intros acc; simpl; [reflexivity |].
  intros H. apply andb_true_iff in H as [Hc H].
  apply negb_true_iff, orb_false_iff in Hc as [-> _].
  rewrite IH by exact H. now rewrite <- app_assoc.
Qed.

Lemma forallb_rev {A : Type} (f : A -> bool) (l : list A) :
  forallb f (rev l) = forallb f l.
Proof.
  induction l as [|x l IH]; simpl; [reflexivity |].
  rewrite forallb_app, IH. simpl. rewrite andb_true_r. apply andb_comm.
Qed.

Lemma drop_seps_plain (l rest : list ascii) :
  l <> [] ->
  forallb (fun c => negb (Ascii.eqb c "." || Path.is_sep c)) l = true ->
  Path.drop_seps (l ++ rest) = l ++ rest.
Proof.
  destruct l as [|c l]; [congruence |]. intros _ H. simpl in *.
  apply andb_true_iff in H as [Hc _].
  apply negb_true_iff, orb_false_iff in Hc as [_ ->]. reflexivity.
Qed.

Lemma rev_basename_with_extension (name ext : string) :
  plain_extension ext = true ->
  Path.rev_basename (name +:+ "." +:+ ext)
    = rev (list_ascii_of_string ext) ++ "."%char :: last_portion name.
Proof.
  intros H. apply andb_true_iff in H as [Hne Hplain].
  unfold Path.rev_basename, last_portion.
  rewrite list_ascii_of_string_app. simpl. rewrite rev_app_distr. simpl.
  rewrite <- app_assoc. simpl.
  rewrite <- forallb_rev in Hplain.
  rewrite drop_seps_plain; [| | exact Hplain].
  - rewrite until_sep_plain by exact Hplain. reflexivity.
  - destruct ext as [|c ext]; [discriminate |]. simpl.
    intros Hnil. apply (f_equal (@length ascii)) in Hnil.
    rewrite length_app in Hnil. simpl in Hnil. lia.
Qed.

(** The extension of a name to which a plain extension was appended. *)
Lemma extname_with_extension (name ext : string) :
  plain_extension ext = true ->
  Path.extname (name +:+ "." +:+ ext) =
  match last_portion name with
  | [] => ""
  | _ :: _ => "." +:+ ext
  end.
Proof.
  intros H. unfold Path.extname. rewrite rev_basename_with_extension by exact H.
  apply andb_true_iff in H as [Hne Hplain].
  rewrite <- forallb_rev in Hplain.
  rewrite cut_at_dot_plain by exact Hplain.
  rewrite rev_involutive, app_nil_r.
  destruct (last_portion name) as [|d [|d' l]]; [reflexivity | |].
  - destruct ext as [|c ext]; [discriminate |]. simpl.
    now rewrite string_of_list_ascii_of_string.
  - destruct (list_ascii_of_string ext) as [|a l0] eqn:He.
    + destruct ext; discriminate.
    + rewrite <- He. simpl. now rewrite string_of_list_ascii_of_string.
Qed.

Lemma last_portion_nil (name : string) :
  last_portion name = [] <-> name = "" \/ Path.ends_with_sep name = true.
Proof.
  unfold last_portion.
  assert (Hlast : forall s c, Path.ends_with_sep (s +:+ String c "") = Path.is_sep c).
  { induction s as [|d s IH]; intros c; simpl; [reflexivity |].
    rewrite IH. destruct s; reflexivity. }
  assert (Hsnoc : forall s, s = "" \/ exists s' c, s = s' +:+ String c "").
  { induction s as [|d s IH]; [left; reflexivity | right].
    destruct IH as [-> | (s' & c & ->)].
    - exists "", d. reflexivity.
    - exists (String d s'), c. reflexivity. }
  destruct (Hsnoc name) as [-> | (s' & c & ->)].
  - simpl. split; [left; reflexivity | reflexivity].
  - rewrite list_ascii_of_string_app, rev_app_distr, Hlast. simpl.
    destruct (Path.is_sep c); split; try discriminate; auto.
    + intros [H | H]; [| discriminate]. destruct s'; discriminate.
Qed.

Lemma last_portion_cases (name : string) :
  last_portion name = [] <->
  (String.eqb name "" || Path.ends_with_sep name)%bool = true.
Proof.
  rewrite last_portion_nil, orb_true_iff, String.eqb_eq. reflexivity.
Qed.

Lemma addExtension_cases (name ext : string) :
  addExtension name ext =
  if String.eqb (Path.extname name) "" then name +:+ "." +:+ ext else name.
Proof. unfold addExtension. destruct (String.eqb (Path.extname name) ""); reflexivity. Qed.

Lemma addExtension_extended (name ext : string) :
  plain_extension ext = true ->
  addExtension (name +:+ "." +:+ ext) ext =
  match last_portion name with
  | [] => (name +:+ "." +:+ ext) +:+ "." +:+ ext
  | _ :: _ => name +:+ "." +:+ ext
  end.
Proof.
  intros Hext. rewrite addExtension_cases, extname_with_extension by exact Hext.
  destruct (last_portion name); [reflexivity |].
  destruct ext; [discriminate | reflexivity].
Qed.

(** For a name with something in its last portion, the name with the
    extension enforced keeps it when the extension is enforced again. *)
Lemma addExtension_stable (name ext : string) :
  plain_extension ext = true ->
  name <> "" -> Path.ends_with_sep name = false ->
  addExtension (addExtension name ext) ext = addExtension name ext.
Proof.
  intros Hext Hne Hsep.
  rewrite (addExtension_cases name).
  destruct (String.eqb (Path.extname name) "") eqn:He.
  - rewrite addExtension_extended by exact Hext.
    destruct (last_portion name) eqn:Hl; [| reflexivity].
    apply last_portion_nil in Hl as [-> | Hl]; congruence.
  - now rewrite addExtension_cases, He.
Qed.

(** X4: enforcing a plain extension twice is enforcing it once, except
    on the names without extension whose last portion is empty (the
    empty name and the names that end in a separator): these get the
    extension a second time. *)
Theorem addExtension_twice (name ext : string) :
  plain_extension ext = true ->
  addExtension (addExtension name ext) ext =
  if (String.eqb (Path.extname name) "" &&
      (String.eqb name "" || Path.ends_with_sep name))%bool
  then (name +:+ "." +:+ ext) +:+ "." +:+ ext
  else addExtension name ext.
Proof.
  intros Hext.
  rewrite !(addExtension_cases name).
  destruct (String.eqb (Path.extname name) "") eqn:He; simpl.
  - rewrite addExtension_extended by exact Hext.
    destruct (String.eqb name "" || Path.ends_with_sep name)%bool eqn:Hc.
    + apply last_portion_cases in Hc. rewrite Hc. reflexivity.
    + destruct (last_portion name) eqn:Hl; [| reflexivity].
      apply last_portion_cases in Hl. congruence.
  - now rewrite addExtension_cases, He.
Qed.

Lemma addExtension_twice_witness :
  plain_extension "jade" = true /\
  addExtension (addExtension "partials/" "jade") "jade" = "partials/.jade.jade" /\
  addExtension (addExtension "app" "jade") "jade" = "app.jade" /\
  addExtension (addExtension "app.html" "jade") "jade" = "app.html".
Proof.
  split; [reflexivity |].
  rewrite !(addExtension_twice _ "jade") by reflexivity.
  repeat split.
Defined.

End ExtensionAdded.

(** ** The configuration accessors *)

Section Settings.

(** X5: each accessor called with a non-empty string sets its own
    setting and returns nothing; the value is read back by the call
    without argument, and the other settings, the cache flag among
    them, are left as they were. *)
Theorem setters_round_trip (cfg : config) (v : string) :
  v <> "" ->
  (Views.root (Some v) cfg
     = (None, Config (cache cfg) v (dirviews cfg) (dirpublic cfg)
                (engFirst cfg) (engSecond cfg)) /\
   fst (Views.root None (snd (Views.root (Some v) cfg))) = Some v) /\
  (Views.views (Some v) cfg
     = (None, Config (cache cfg) (dirroot cfg) v (dirpublic cfg)
                (engFirst cfg) (engSecond cfg)) /\
   fst (Views.views None (snd (Views.views (Some v) cfg))) = Some v) /\
  (Views.public (Some v) cfg
     = (None, Config (cache cfg) (dirroot cfg) (dirviews cfg) v
                (engFirst cfg) (engSecond cfg)) /\
   fst (Views.public None (snd (Views.public (Some v) cfg))) = Some v) /\
  (Views.firstPass (Some v) cfg
     = (None, Config (cache cfg) (dirroot cfg) (dirviews cfg) (dirpublic cfg)
                v (engSecond cfg)) /\
   fst (Views.firstPass None (snd (Views.firstPass (Some v) cfg))) = Some v) /\
  (Views.secondPass (Some v) cfg
     = (None, Config (cache cfg) (dirroot cfg) (dirviews cfg) (dirpublic cfg)
                (engFirst cfg) v) /\
   fst (Views.secondPass None (snd (Views.secondPass (Some v) cfg))) = Some v).
Proof.
  intros Hv. destruct v as [|c v]; [congruence |]. repeat split.
Qed.

Lemma setters_round_trip_witness :
  "/srv/other" <> "" /\
  fst (Views.root None (snd (Views.root (Some "/srv/other") Sample.production)))
    = Some "/srv/other" /\
  cache (snd (Views.root (Some "/srv/other") Sample.production)) = true.
Proof.
  split; [discriminate |].
  destruct (setters_round_trip Sample.production "/srv/other") as ((Hset & Hget) & _);
    [discriminate |].
  split; [exact Hget |]. rewrite Hset. reflexivity.
Defined.

(** X6: called without argument or with the empty string, an accessor
    changes nothing and returns the current setting: no setting can be
    made empty. *)
Theorem setters_read_on_falsy (cfg : config) :
  Views.root None cfg = (Some (dirroot cfg), cfg) /\
  Views.root (Some "") cfg = (Some (dirroot cfg), cfg) /\
  Views.views None cfg = (Some (dirviews cfg), cfg) /\
  Views.views (Some "") cfg = (Some (dirviews cfg), cfg) /\
  Views.public None cfg = (Some (dirpublic cfg), cfg) /\
  Views.public (Some "") cfg = (Some (dirpublic cfg), cfg) /\
  Views.firstPass None cfg = (Some (engFirst cfg), cfg) /\
  Views.firstPass (Some "") cfg = (Some (engFirst cfg), cfg) /\
  Views.secondPass None cfg = (Some (engSecond cfg), cfg) /\
  Views.secondPass (Some "") cfg = (Some (engSecond cfg), cfg).
Proof. repeat split. Qed.

(** The four accessors read the cache flag, the root and the views
    directory, and nothing else of the configuration. *)
Lemma accessors_read_three_settings (c1 c2 : config) :
  cache c1 = cache c2 -> dirroot c1 = dirroot c2 -> dirviews c1 = dirviews c2 ->
  (forall w name options st,
     Views.file w c1 name options st = Views.file w c2 name options st) /\
  (forall w name options st,
     Views.publicFile w c1 name options st = Views.publicFile w c2 name options st) /\
  (forall w name vars options st,
     Views.jade w c1 name vars options st = Views.jade w c2 name vars options st) /\
  (forall w name vars st,
     Views.handlebars w c1 name vars st = Views.handlebars w c2 name vars st).
Proof.
  destruct c1, c2. simpl. intros -> -> ->. repeat split.
Qed.

(** X7: the public directory and the two engine names never reach the
    accessors: after [Views.public], [Views.firstPass] or
    [Views.secondPass] set anything, the file accessor, the public-file
    accessor (which joins the literal ["public"]) and the two renderers
    behave as before. *)
Theorem unused_settings (cfg : config) (v : option string) :
  let after := [snd (Views.public v cfg); snd (Views.firstPass v cfg);
                snd (Views.secondPass v cfg)] in
  forall cfg', In cfg' after ->
    (forall w name options st,
       Views.file w cfg' name options st = Views.file w cfg name options st) /\
    (forall w name options st,
       Views.publicFile w cfg' name options st = Views.publicFile w cfg name options st) /\
    (forall w name vars options st,
       Views.jade w cfg' name vars options st = Views.jade w cfg name vars options st) /\
    (forall w name vars st,
       Views.handlebars w cfg' name vars st = Views.handlebars w cfg name vars st).
Proof.
  cbv zeta. intros cfg' Hin.
  apply accessors_read_three_settings;
    unfold Views.public, Views.firstPass, Views.secondPass in Hin;
    destruct (Views.setter v); simpl in Hin;
    repeat (destruct Hin as [<- | Hin]; [reflexivity |]); contradiction.
Qed.

Lemma unused_settings_witness :
  let cfg' := snd (Views.public (Some "static") Sample.production) in
  dirpublic cfg' = "static" /\
  trace (snd (Views.publicFile Sample.online cfg' "app.js" (VPrim PUndefined) init))
    = [Read "/srv/site/public/app.js"; Gzip Sample.hi].
Proof.
  cbv zeta. split; [reflexivity |].
  destruct (unused_settings Sample.production (Some "static")
              (snd (Views.public (Some "static") Sample.production)))
    as (_ & Hpublic & _); [left; reflexivity |].
  rewrite Hpublic. reflexivity.
Defined.

End Settings.

(** ** More on the file cache *)

Section FileCacheMore.

Lemma file_complete_entry_serves_aux (w : world) (cfg : config) (name : string)
    (options : value) (st : state) (raw zipped : bytes) :
  cache cfg = true ->
  files st !! name = Some (Entry (Some raw) (Some zipped)) ->
  Views.file w cfg name options st
    = (Resolved (if get (prop_zip (file_options options)) then zipped else raw), st).
Proof.
  intros Hc He. rewrite file_unfold, He, Hc. unfold file_type.
  destruct (get (prop_zip (file_options options))); reflexivity.
Qed.

(** X8: with the flag on, an entry that holds both representations
    answers every request for its path, whatever the options and
    whatever has become of the file: the compressed bytes when
    [options.zip] is truthy, the raw ones otherwise, with no call to
    the outside and no change to the store. *)
Theorem file_complete_entry_serves (w : world) (cfg : config) (name : string)
    (options : value) (st : state) (raw zipped : bytes) :
  cache cfg = true ->
  files st !! name = Some (Entry (Some raw) (Some zipped)) ->
  Views.file w cfg name options st
    = (Resolved (if get (prop_zip (file_options options)) then zipped else raw), st).
Proof. apply file_complete_entry_serves_aux. Qed.

Lemma file_complete_entry_witness :
  let p := "/srv/site/public/app.js" in
  let st := snd (Views.file Sample.online Sample.production p (VPrim PUndefined) init) in
  cache Sample.production = true /\
  files st !! p
    = Some (Entry (Some Sample.hi) (Some [Byte.x1f; Byte.x8b; Byte.x68; Byte.x69])) /\
  Views.file Sample.wiped Sample.production p Sample.no_zip st = (Resolved Sample.hi, st).
Proof.
  cbv zeta.
  assert (He : files (snd (Views.file Sample.online Sample.production
                             "/srv/site/public/app.js" (VPrim PUndefined) init))
               !! "/srv/site/public/app.js"
               = Some (Entry (Some Sample.hi)
                         (Some [Byte.x1f; Byte.x8b; Byte.x68; Byte.x69])))
    by (vm_compute; reflexivity).
  split; [reflexivity |]. split; [exact He |].
  exact (file_complete_entry_serves Sample.wiped Sample.production _ Sample.no_zip _ _ _
           eq_refl He).
Defined.




Lemma files_detached_zip_ne w name data st k :
  k <> name ->
  files (detached (zip w data .tap (Views.store_zip name)) st) !! k = files st !! k.
Proof.
  intros Hk. rewrite detached_zip_unfold.
  destruct (gzip w data); simpl; [| reflexivity].
  apply lookup_alter_ne. congruence.
Qed.

Lemma templates_detached_zip w name data st :
  templates (detached (zip w data .tap (Views.store_zip name)) st) = templates st.
Proof. rewrite detached_zip_unfold. destruct (gzip w data); reflexivity. Qed.




End FileCacheMore.

(** ** A world that does not change *)

Section StableWorld.

Variable w : world.






End StableWorld.


(** ** Growth *)

Section Growth.

Lemma grows_refl st : grows st st.
Proof. repeat split; auto. exists []. now rewrite app_nil_r. Qed.

Lemma grows_trans st1 st2 st3 : grows st1 st2 -> grows st2 st3 -> grows st1 st3.
Proof.
  intros (Hf1 & Ht1 & ev1 & He1) (Hf2 & Ht2 & ev2 & He2).
  repeat split; auto. exists (ev1 ++ ev2). now rewrite He2, He1, app_assoc.
Qed.

Lemma grows_log e st : grows st (log e st).
Proof. repeat split; auto. now exists [e]. Qed.

Lemma grows_set_files_insert name e st : grows st (set_files (insert name e) st).
Proof.
  repeat split; auto; [| exists []; simpl; now rewrite app_nil_r].
  intros k Hk. simpl. rewrite lookup_insert. case_decide; [eauto | exact Hk].
Qed.

Lemma grows_set_templates_insert key t st : grows st (set_templates (insert key t) st).
Proof.
  repeat split; auto; [| exists []; simpl; now rewrite app_nil_r].
  intros k Hk. simpl. rewrite lookup_insert. case_decide; [eauto | exact Hk].
Qed.

Lemma grows_store_zip name zipped st : grows st (Views.store_zip name zipped st).
Proof.
  repeat split; auto; [| exists []; simpl; now rewrite app_nil_r].
  intros k Hk. unfold Views.store_zip. simpl. rewrite lookup_alter.
  case_decide; [subst; destruct Hk as [e ->]; simpl; eauto | exact Hk].
Qed.

Lemma grows_store_file name o file zipped st :
  grows st (Views.store_file name o file zipped st).
Proof.
  unfold Views.store_file. destruct (get (prop_cache o));
    [apply grows_set_files_insert | apply grows_refl].
Qed.

(** Peels the writes and the logged calls off the store on the right. *)
Ltac grow :=
  lazymatch goal with
  | |- grows ?s ?s => apply grows_refl
  | |- grows ?s (log ?e ?t) =>
      apply (grows_trans s t); [grow | apply grows_log]
  | |- grows ?s (Views.store_file ?n ?o ?f ?z ?t) =>
      apply (grows_trans s t); [grow | apply grows_store_file]
  | |- grows ?s (Views.store_zip ?n ?z ?t) =>
      apply (grows_trans s t); [grow | apply grows_store_zip]
  | |- grows ?s (set_templates (insert ?k ?v) ?t) =>
      apply (grows_trans s t); [grow | apply grows_set_templates_insert]
  | |- grows ?s (set_files (insert ?k ?v) ?t) =>
      apply (grows_trans s t); [grow | apply grows_set_files_insert]
  end.

Lemma grows_read_file w name o type st :
  grows st (snd (Views.read_file w name o type st)).
Proof.
  rewrite read_file_unfold.
  destruct (fs w name) as [file|];
    [destruct (get (prop_zip o)); [destruct (gzip w file) |] |]; cbn [snd]; grow.
Qed.

Lemma grows_file w cfg name options st :
  grows st (snd (Views.file w cfg name options st)).
Proof.
  rewrite file_unfold.
  destruct (files st !! name) as [e|]; [destruct (cache cfg) |];
    try apply grows_read_file.
  destruct (Views.representation e (file_type options)); [apply grows_refl |].
  apply (beside_read_file_ind (grows st)).
  - apply grows_refl.
  - intros s Hs. eapply grows_trans; [exact Hs | apply grows_log].
  - intros s zipped _ Hs. eapply grows_trans; [exact Hs | apply grows_store_zip].
  - intros s Hs. eapply grows_trans; [exact Hs | apply grows_read_file].
Qed.

Lemma grows_render_file w cfg key vars o st :
  grows st (snd (Views.render_file w cfg key vars o st)).
Proof.
  rewrite render_file_unfold. cbv zeta.
  destruct (fs w _); [destruct (render w _ _) |]; cbn [snd];
    try destruct (get (prop_cache o)); grow.
Qed.

Lemma grows_jade w cfg name vars options st :
  grows st (snd (Views.jade w cfg name vars options st)).
Proof.
  rewrite jade_unfold. cbv zeta.
  destruct (templates st !! _) as [t|];
    [destruct (truthy_tvalue t && cache cfg)%bool |];
    try apply grows_render_file. apply grows_refl.
Qed.

Lemma grows_handlebars w cfg name vars st :
  grows st (snd (Views.handlebars w cfg name vars st)).
Proof.
  rewrite handlebars_unfold. cbv zeta.
  assert (Hm : grows st (snd (Views.markup w cfg (addExtension name "jade") vars st))).
  { rewrite markup_unfold. destruct (String.eqb _ _); [| apply grows_jade].
    destruct (fs w _); cbn [snd]; grow. }
  destruct (Views.markup w cfg _ vars st) as [[html|e] st1]; cbn [snd] in *;
    [| exact Hm].
  destruct (compile w html); cbn [snd];
    (eapply grows_trans; [exact Hm |]); grow.
Qed.

(** X12: no sequence of calls of the four accessors evicts anything:
    a path that has an entry keeps one, a template slot that is filled
    stays filled, and the record of the capability calls is only
    extended. *)
Theorem caches_only_grow (st st' : state) :
  rtc call st st' -> grows st st'.
Proof.
  induction 1 as [|st st1 st2 Hcall _ IH]; [apply grows_refl |].
  eapply grows_trans; [| exact IH].
  destruct Hcall; [apply grows_file | apply grows_file | apply grows_jade
                  | apply grows_handlebars].
Qed.

Lemma caches_only_grow_witness :
  let st1 := snd (Views.file Sample.online Sample.production "/srv/site/public/app.js"
                    (VPrim PUndefined) init) in
  let st2 := snd (Views.handlebars Sample.wiped Sample.production "app" None st1) in
  rtc call init st2 /\ grows init st2 /\ grows st1 st2.
Proof.
  cbv zeta.
  assert (H : rtc call init
                (snd (Views.handlebars Sample.wiped Sample.production "app" None
                        (snd (Views.file Sample.online Sample.production
                                "/srv/site/public/app.js" (VPrim PUndefined) init))))).
  { eapply rtc_l; [apply call_file | apply rtc_once, call_handlebars]. }
  split; [exact H |].
  split; apply caches_only_grow; [exact H | apply rtc_once, call_handlebars].
Defined.

End Growth.

(** ** One namespace for two kinds of values *)

Section SharedSlots.

Lemma reads_render_file w cfg key vars o st :
  reads (trace (snd (Views.render_file w cfg key vars o st))) = S (reads (trace st)).
Proof.
  rewrite trace_render_file, reads_app. simpl. destruct (fs w _); simpl; lia.
Qed.

Lemma templates_render_file_uncached w cfg key vars o st :
  get (prop_cache o) = false ->
  templates (snd (Views.render_file w cfg key vars o st)) = templates st.
Proof.
  intros Hc. rewrite render_file_unfold, Hc. cbv zeta.
  destruct (fs w _); [destruct (render w _ _) |]; reflexivity.
Qed.

(** The slot after a resolved second-pass call. *)
Lemma handlebars_resolved_slot w cfg name vars st f st' :
  Views.handlebars w cfg name vars st = (Resolved f, st') ->
  (exists h, f = TFunction h) /\ templates st' !! addExtension name "jade" = Some f.
Proof.
  rewrite handlebars_unfold. cbv zeta.
  destruct (Views.markup w cfg _ vars st) as [[html|e] st1]; [| discriminate].
  destruct (compile w html) as [h|]; [| discriminate].
  intros [= <- <-]. split; [eauto | apply lookup_insert_eq].
Qed.

(** X13: with the flag on, once the second-pass renderer has resolved
    for a name, the first-pass renderer called for that name resolves
    to the compiled function, not to markup, without reading anything,
    whatever the variables, the options and the world. *)
Theorem jade_serves_compiled_function (w1 w2 : world) (cfg : config) (name : string)
    (vars vars' : option (gmap string string)) (options : value)
    (st st' : state) (f : tvalue) :
  cache cfg = true ->
  Views.handlebars w1 cfg name vars st = (Resolved f, st') ->
  (exists h, f = TFunction h) /\
  Views.jade w2 cfg name vars' options st' = (Resolved f, st').
Proof.
  intros Hc H. apply handlebars_resolved_slot in H as [[h ->] Hslot].
  split; [eauto |]. rewrite jade_unfold. cbv zeta. rewrite Hslot, Hc. reflexivity.
Qed.

Lemma jade_serves_compiled_function_witness :
  let st' := snd (Views.handlebars Sample.online Sample.production "app" None init) in
  cache Sample.production = true /\
  Views.handlebars Sample.online Sample.production "app" None init
    = (Resolved (TFunction "template:<b>hi</b>"), st') /\
  Views.jade Sample.wiped Sample.production "app" None (VPrim PUndefined) st'
    = (Resolved (TFunction "template:<b>hi</b>"), st').
Proof.
  cbv zeta.
  assert (H : Views.handlebars Sample.online Sample.production "app" None init
              = (Resolved (TFunction "template:<b>hi</b>"),
                 snd (Views.handlebars Sample.online Sample.production "app" None init)))
    by (vm_compute; reflexivity).
  split; [reflexivity |]. split; [exact H |].
  exact (proj2 (jade_serves_compiled_function Sample.online Sample.wiped
                  Sample.production "app" None None (VPrim PUndefined) _ _ _ eq_refl H)).
Defined.

Lemma extname_addExtension_jade_not_html (name : string) :
  Path.extname name <> ".html" ->
  String.eqb (Path.extname (addExtension name "jade")) ".html" = false.
Proof.
  intros H. rewrite addExtension_cases.
  destruct (String.eqb (Path.extname name) "") eqn:He.
  - rewrite extname_with_extension by reflexivity.
    destruct (last_portion name); reflexivity.
  - apply String.eqb_neq. exact H.
Qed.

Lemma handlebars_again_aux (w1 w2 : world) (cfg : config)
    (name : string) (vars vars' : option (gmap string string))
    (st st' : state) (f : tvalue) :
  cache cfg = true ->
  name <> "" -> Path.ends_with_sep name = false -> Path.extname name <> ".html" ->
  Views.handlebars w1 cfg name vars st = (Resolved f, st') ->
  Views.handlebars w2 cfg name vars' st' =
  match compile w2 f with
  | Some h =>
      (Resolved (TFunction h),
       set_templates (insert (addExtension name "jade") (TFunction h))
         (log (Compile f) st'))
  | None => (Rejected CompileError, log (Compile f) st')
  end.
Proof.
  intros Hc Hne Hsep Hhtml H.
  apply handlebars_resolved_slot in H as [[h ->] Hslot].
  rewrite handlebars_unfold. cbv zeta.
  rewrite markup_unfold, extname_addExtension_jade_not_html by exact Hhtml.
  rewrite jade_unfold. cbv zeta.
  rewrite addExtension_stable by (reflexivity || assumption).
  rewrite Hslot, Hc. simpl. reflexivity.
Qed.

(** X14: with the flag on, once the second-pass renderer has resolved
    for a name (not an [.html] one, and with something in its last
    portion), its next call for that name reads and renders nothing: it
    finds the compiled function where it expects markup and hands that
    function to the second-pass engine, and resolves or rejects as the
    engine does on it. *)
Theorem handlebars_again_compiles_the_function (w1 w2 : world) (cfg : config)
    (name : string) (vars vars' : option (gmap string string))
    (st st' : state) (f : tvalue) :
  cache cfg = true ->
  name <> "" -> Path.ends_with_sep name = false -> Path.extname name <> ".html" ->
  Views.handlebars w1 cfg name vars st = (Resolved f, st') ->
  Views.handlebars w2 cfg name vars' st' =
  match compile w2 f with
  | Some h =>
      (Resolved (TFunction h),
       set_templates (insert (addExtension name "jade") (TFunction h))
         (log (Compile f) st'))
  | None => (Rejected CompileError, log (Compile f) st')
  end.
Proof. apply handlebars_again_aux. Qed.

Lemma handlebars_again_witness :
  let st' := snd (Views.handlebars Sample.online Sample.production "app" None init) in
  Views.handlebars Sample.online Sample.production "app" None init
    = (Resolved (TFunction "template:<b>hi</b>"), st') /\
  Views.handlebars Sample.online Sample.production "app" None st'
    = (Rejected CompileError, log (Compile (TFunction "template:<b>hi</b>")) st').
Proof.
  cbv zeta.
  assert (H : Views.handlebars Sample.online Sample.production "app" None init
              = (Resolved (TFunction "template:<b>hi</b>"),
                 snd (Views.handlebars Sample.online Sample.production "app" None init)))
    by (vm_compute; reflexivity).
  split; [exact H |].
  rewrite (handlebars_again_compiles_the_function Sample.online Sample.online
             Sample.production "app" None None init _ _ eq_refl
             ltac:(discriminate) eq_refl ltac:(discriminate) H).
  reflexivity.
Defined.

(** X15: empty markup is never served from the cache: after a
    first-pass call that resolved to the empty string, the next call
    for that name reads the file again, with the flag on as with the
    flag off. *)
Theorem jade_empty_markup_is_read_again (w1 w2 : world) (cfg : config) (name : string)
    (vars vars' : option (gmap string string)) (options options' : value)
    (st st1 : state) :
  Views.jade w1 cfg name vars options st = (Resolved (TString ""), st1) ->
  reads (trace (snd (Views.jade w2 cfg name vars' options' st1)))
    = S (reads (trace st1)).
Proof.
  intros H.
  assert (Hmiss : match templates st1 !! addExtension name "jade" with
                  | Some t => (truthy_tvalue t && cache cfg)%bool = false
                  | None => True
                  end).
  { revert H. rewrite jade_unfold. cbv zeta.
    assert (Hr : Views.render_file w1 cfg (addExtension name "jade") vars
                   (jade_options options) st = (Resolved (TString ""), st1) ->
                 templates st1 = <[addExtension name "jade" := TString ""]> (templates st)
                 \/ templates st1 = templates st).
    { destruct (get (prop_cache (jade_options options))) eqn:Hc; intros Hres.
      - left. now destruct (render_file_resolved _ _ _ _ _ _ _ _ Hc Hres).
      - right. pose proof (templates_render_file_uncached w1 cfg (addExtension name "jade")
                             vars _ st Hc) as Ht.
        now rewrite Hres in Ht. }
    destruct (templates st !! addExtension name "jade") as [t|] eqn:Hs.
    - destruct (truthy_tvalue t && cache cfg)%bool eqn:Hhit.
      + intros [= -> <-]. rewrite Hs. discriminate.
      + intros Hres. destruct (Hr Hres) as [-> | ->].
        * rewrite lookup_insert_eq. reflexivity.
        * rewrite Hs. exact Hhit.
    - intros Hres. destruct (Hr Hres) as [-> | ->].
      + rewrite lookup_insert_eq. reflexivity.
      + now rewrite Hs. }
  rewrite jade_unfold. cbv zeta.
  destruct (templates st1 !! addExtension name "jade") as [t|];
    [rewrite Hmiss |]; apply reads_render_file.
Qed.

Lemma jade_empty_markup_witness :
  let st1 := snd (Views.jade Scenario.blank Sample.production "app" None
                    (VPrim PUndefined) init) in
  Views.jade Scenario.blank Sample.production "app" None (VPrim PUndefined) init
    = (Resolved (TString ""), st1) /\
  templates st1 !! "app.jade" = Some (TString "") /\
  reads (trace (snd (Views.jade Scenario.blank Sample.production "app" None
                       (VPrim PUndefined) st1))) = S (reads (trace st1)).
Proof.
  cbv zeta.
  assert (H : Views.jade Scenario.blank Sample.production "app" None
                (VPrim PUndefined) init
              = (Resolved (TString ""),
                 snd (Views.jade Scenario.blank Sample.production "app" None
                        (VPrim PUndefined) init)))
    by (vm_compute; reflexivity).
  split; [exact H |]. split; [vm_compute; reflexivity |].
  exact (jade_empty_markup_is_read_again Scenario.blank Scenario.blank
           Sample.production "app" None None (VPrim PUndefined) (VPrim PUndefined)
           init _ H).
Defined.

(** The slot after a resolved first-pass call that caches. *)
Lemma jade_resolved_slot w cfg name vars options st t st' :
  get (prop_cache (jade_options options)) = true ->
  Views.jade w cfg name vars options st = (Resolved t, st') ->
  templates st' !! addExtension name "jade" = Some t.
Proof.
  intros Hc. rewrite jade_unfold. cbv zeta.
  assert (Hr : Views.render_file w cfg (addExtension name "jade") vars
                 (jade_options options) st = (Resolved t, st') ->
               templates st' !! addExtension name "jade" = Some t).
  { intros H. destruct (render_file_resolved _ _ _ _ _ _ _ _ Hc H) as [_ ->].
    apply lookup_insert_eq. }
  destruct (templates st !! addExtension name "jade") as [t0|] eqn:Hs; [| exact Hr].
  destruct (truthy_tvalue t0 && cache cfg)%bool; [| exact Hr].
  intros [= <- <-]. exact Hs.
Qed.

(** X16: the template cache is keyed by the name alone.  With the flag
    on, after a first-pass call that cached a non-empty result, every
    later call for that name gets that result, with other variables,
    other options, another root or views directory, or another world,
    and nothing is read or rendered. *)
Theorem template_cache_keyed_by_name_alone (w1 w2 : world) (cfg1 cfg2 : config)
    (name : string) (vars1 vars2 : option (gmap string string))
    (options1 options2 : value) (st st1 : state) (t : tvalue) :
  cache cfg2 = true ->
  get (prop_cache (jade_options options1)) = true ->
  truthy_tvalue t = true ->
  Views.jade w1 cfg1 name vars1 options1 st = (Resolved t, st1) ->
  Views.jade w2 cfg2 name vars2 options2 st1 = (Resolved t, st1).
Proof.
  intros Hc Ho Ht H. apply jade_resolved_slot in H; [| exact Ho].
  rewrite jade_unfold. cbv zeta. rewrite H, Ht, Hc. reflexivity.
Qed.

Lemma template_cache_keyed_witness :
  let st1 := snd (Views.jade Sample.online Sample.production "app" None
                    (VPrim PUndefined) init) in
  let moved := snd (Views.views (Some "templates") Sample.production) in
  Views.jade Sample.online Sample.production "app" None (VPrim PUndefined) init
    = (Resolved (TString "<b>hi</b>"), st1) /\
  dirviews moved = "templates" /\
  Views.jade Sample.wiped moved "app" (Some {["title" := "other"]})
      (VObject (Object (Some (PBool false)) None None)) st1
    = (Resolved (TString "<b>hi</b>"), st1).
Proof.
  cbv zeta.
  assert (H : Views.jade Sample.online Sample.production "app" None
                (VPrim PUndefined) init
              = (Resolved (TString "<b>hi</b>"),
                 snd (Views.jade Sample.online Sample.production "app" None
                        (VPrim PUndefined) init)))
    by (vm_compute; reflexivity).
  split; [exact H |]. split; [reflexivity |].
  exact (template_cache_keyed_by_name_alone Sample.online Sample.wiped
           Sample.production (snd (Views.views (Some "templates") Sample.production))
           "app" None (Some {["title" := "other"]}) (VPrim PUndefined)
           (VObject (Object (Some (PBool false)) None None)) init _
           (TString "<b>hi</b>") eq_refl eq_refl eq_refl H).
Defined.

(** X17: for a name with the extension [.html] the second-pass renderer
    consults no cache, even with the flag on: every call reads the file
    under the views directory, without an encoding, and hands the
    buffer, not a string, to the second-pass engine; it resolves only
    if the engine compiles a buffer. *)
Theorem handlebars_html_reads_a_buffer (w : world) (cfg : config) (name : string)
    (vars : option (gmap string string)) (st : state) :
  Path.extname name = ".html" ->
  Views.handlebars w cfg name vars st =
  match fs w (makePath cfg name (dirviews cfg)) with
  | None =>
      (Rejected (ReadError (makePath cfg name (dirviews cfg))),
       log (Read (makePath cfg name (dirviews cfg))) st)
  | Some b =>
      match compile w (TBuffer b) with
      | Some h =>
          (Resolved (TFunction h),
           set_templates (insert name (TFunction h))
             (log (Compile (TBuffer b))
                (log (Read (makePath cfg name (dirviews cfg))) st)))
      | None =>
          (Rejected CompileError,
           log (Compile (TBuffer b))
             (log (Read (makePath cfg name (dirviews cfg))) st))
      end
  end.
Proof.
  intros He.
  assert (Hkey : addExtension name "jade" = name).
  { rewrite addExtension_cases, He. reflexivity. }
  rewrite handlebars_unfold. cbv zeta. rewrite Hkey, markup_unfold, He. simpl.
  destruct (fs w _); reflexivity.
Qed.

Lemma handlebars_html_witness :
  Path.extname "page.html" = ".html" /\
  Views.handlebars Scenario.static_site Sample.production "page.html" None init
    = (Rejected CompileError,
       log (Compile (TBuffer Sample.hi)) (log (Read "/srv/site/views/page.html") init)).
Proof.
  split; [reflexivity |].
  rewrite (handlebars_html_reads_a_buffer Scenario.static_site Sample.production
             "page.html" None init eq_refl).
  reflexivity.
Defined.

End SharedSlots.

(** ** The route handlers *)

Section Handlers.

Lemma script_options_file_options (options : value) :
  prop_cache (file_options (VObject (script_options options)))
    = prop_cache (script_options options) /\
  prop_zip (file_options (VObject (script_options options)))
    = prop_zip (script_options options).
Proof.
  unfold file_options, script_options.
  destruct (options_or_empty options) as [[c|] [z|] wm]; split; reflexivity.
Qed.

(** X18: a script handler built with warm-up (the defaults) on a cold
    cache, with the flag on and the script readable, leaves both
    representations in the cache, and then serves every request from
    it, whatever has become of the file: the compressed bytes with the
    gzip headers and their length to a client that accepts gzip, the
    raw bytes with no header at all to the others. *)
Theorem scriptHandler_warm_then_served_from_cache (w w' : world) (cfg : config)
    (name : string) (options : value) (req : request) (st : state)
    (file zipped : bytes) :
  let built := scriptHandler w cfg name options st in
  cache cfg = true ->
  get (prop_warm (script_options options)) = true ->
  get (prop_cache (script_options options)) = true ->
  get (prop_zip (script_options options)) = true ->
  files st !! script_location cfg name = None ->
  fs w (script_location cfg name) = Some file ->
  gzip w file = Some zipped ->
  files (snd built) !! script_location cfg name
    = Some (Entry (Some file) (Some zipped)) /\
  fst built w' cfg req (snd built) =
  (Served (if accepts_gzip req
           then [res_set (gzip_headers zipped); res_send (TBuffer zipped)]
           else [res_send (TBuffer file)]) None,
   snd built).
Proof.
  cbv zeta. intros Hflag Hwarm Hcache Hzip Hcold Hfs Hgz.
  unfold scriptHandler. fold (script_options options). rewrite Hwarm.
  cbn [fst snd]. unfold detached, Views.publicFile. fold (script_location cfg name).
  assert (Hentry :
    files (snd (Views.file w cfg (script_location cfg name)
                  (VObject (script_options options)) st)) !! script_location cfg name
    = Some (Entry (Some file) (Some zipped))).
  { destruct (script_options_file_options options) as [Hoc Hoz].
    rewrite file_unfold, Hcold, read_file_unfold, Hfs.
    rewrite Hoz, Hzip, Hgz. unfold Views.store_file.
    rewrite Hoc, Hoz, Hcache, Hzip. cbn [snd]. simpl files.
    apply lookup_insert_eq. }
  split; [exact Hentry |].
  unfold script_request, Views.publicFile. fold (script_location cfg name).
  rewrite (file_complete_entry_serves_aux w' cfg _ _ _ _ _ Hflag Hentry).
  destruct (accepts_gzip req); reflexivity.
Qed.

Lemma scriptHandler_warm_witness :
  let built := scriptHandler Sample.online Sample.production "app.js"
                 (VPrim PUndefined) init in
  cache Sample.production = true /\
  files init !! script_location Sample.production "app.js" = None /\
  fst built Sample.wiped Sample.production Scenario.browser (snd built)
    = (Served [res_set (gzip_headers [Byte.x1f; Byte.x8b; Byte.x68; Byte.x69]);
               res_send (TBuffer [Byte.x1f; Byte.x8b; Byte.x68; Byte.x69])] None,
       snd built) /\
  fst built Sample.wiped Sample.production Scenario.plain_client (snd built)
    = (Served [res_send (TBuffer Sample.hi)] None, snd built).
Proof.
  cbv zeta. split; [reflexivity |]. split; [reflexivity |].
  split;
    refine (proj2 (scriptHandler_warm_then_served_from_cache Sample.online Sample.wiped
                     Sample.production "app.js" (VPrim PUndefined) _ init Sample.hi
                     [Byte.x1f; Byte.x8b; Byte.x68; Byte.x69]
                     eq_refl eq_refl eq_refl eq_refl eq_refl eq_refl eq_refl)).
Defined.

(** X19: a request that a script handler has answered with a body is
    answered again with a body, from the cache: with the flag on, the
    same request made again makes no capability call and leaves the
    store as it is, whatever options the handler was built with
    ([cache: false] included) and whatever has become of the file.
    The calls on the response are the same ones, unless the first
    request found an entry without the representation it asked for,
    where the compression that it started beside the read may settle
    last. *)
Theorem script_request_served_again (w w' : world) (cfg : config) (name : string)
    (req : request) (st st1 : state) (sent : list res_call) :
  cache cfg = true ->
  script_request name w cfg req st = (Served sent None, st1) ->
  (exists sent', script_request name w' cfg req st1 = (Served sent' None, st1)) /\
  ((forall e, files st !! script_location cfg name = Some e ->
              is_Some (Views.representation e
                         (if accepts_gzip req then "zip" else "std"))) ->
   script_request name w' cfg req st1 = (Served sent None, st1)).
Proof.
  intros Hflag. unfold script_request, Views.publicFile. cbv zeta.
  fold (script_location cfg name).
  destruct (Views.file w cfg _ _ st) as [[data|e] st'] eqn:Hfile; [| discriminate].
  intros [= <- <-].
  assert (Hc : get (prop_cache (file_options
                 (VObject (Object None (Some (PBool (accepts_gzip req))) None)))) = true)
    by reflexivity.
  assert (Htype : file_type (VObject (Object None (Some (PBool (accepts_gzip req))) None))
                  = if accepts_gzip req then "zip" else "std")
    by (destruct (accepts_gzip req); reflexivity).
  split.
  - destruct (file_resolved_serves _ _ _ _ _ _ _ Hflag Hc Hfile) as (e & He & [b Hr]).
    rewrite file_unfold, He, Hflag, Hr. eauto.
  - intros Hserves. rewrite <- Htype in Hserves.
    destruct (file_resolved_entry _ _ _ _ _ _ _ Hflag Hc Hserves Hfile) as (e & He & Hr).
    rewrite file_unfold, He, Hflag, Hr. reflexivity.
Qed.

Lemma script_request_served_again_witness :
  let handler := fst (scriptHandler Sample.online Sample.production "app.js"
                        (VObject (Object (Some (PBool false)) None (Some (PBool false))))
                        init) in
  let st1 := snd (handler Sample.online Sample.production Scenario.plain_client init) in
  cache Sample.production = true /\
  handler Sample.online Sample.production Scenario.plain_client init
    = (Served [res_send (TBuffer Sample.hi)] None, st1) /\
  handler Sample.wiped Sample.production Scenario.plain_client st1
    = (Served [res_send (TBuffer Sample.hi)] None, st1).
Proof.
  cbv zeta.
  assert (H : script_request "app.js" Sample.online Sample.production
                Scenario.plain_client init
              = (Served [res_send (TBuffer Sample.hi)] None,
                 snd (script_request "app.js" Sample.online Sample.production
                        Scenario.plain_client init)))
    by (vm_compute; reflexivity).
  split; [reflexivity |]. split; [exact H |].
  apply (script_request_served_again Sample.online Sample.wiped Sample.production
           "app.js" Scenario.plain_client init _ _ eq_refl H).
  intros e He. vm_compute in He. discriminate.
Defined.

(** On an entry without the compressed bytes, of a script rewritten
    since, a browser is sent the compression of the new script and then,
    at the next request, that of the old one. *)
Lemma script_request_stale_compression :
  let st := snd (Views.file Sample.online Sample.production "/srv/site/public/app.js"
                   Sample.no_zip init) in
  let first := script_request "app.js" Scenario.rewritten Sample.production
                 Scenario.browser st in
  calls (fst first)
    = [res_set (gzip_headers [Byte.x1f; Byte.x8b; Byte.x79; Byte.x6f]);
       res_send (TBuffer [Byte.x1f; Byte.x8b; Byte.x79; Byte.x6f])] /\
  script_request "app.js" Scenario.rewritten Sample.production Scenario.browser (snd first)
    = (Served [res_set (gzip_headers [Byte.x1f; Byte.x8b; Byte.x68; Byte.x69]);
               res_send (TBuffer [Byte.x1f; Byte.x8b; Byte.x68; Byte.x69])] None,
       snd first).
Proof. cbv zeta. split; vm_compute; reflexivity. Qed.

Lemma options_or_empty_prim (p : prim) : options_or_empty (VPrim p) = empty_object.
Proof. destruct p; reflexivity. Qed.


(** *** The engine, looked up by name *)

Lemma call_member_S (d : nat) w member name vars third cfg st :
  call_member (S d) w member name vars third cfg st =
  if String.eqb member "staticHandler" then
    factory (static_build (call_member d) w cfg name vars third st)
  else if String.eqb member "templateHandler" then
    factory (template_build (call_member d) w cfg name vars third st)
  else plain_member w member name vars third cfg st.
Proof. reflexivity. Qed.

Lemma call_member_static (d : nat) w name vars third cfg st :
  call_member (S d) w "staticHandler" name vars third cfg st
    = factory (static_build (call_member d) w cfg name vars third st).
Proof. reflexivity. Qed.

Lemma call_member_template (d : nat) w name vars third cfg st :
  call_member (S d) w "templateHandler" name vars third cfg st
    = factory (template_build (call_member d) w cfg name vars third st).
Proof. reflexivity. Qed.

(** A factory called as an engine by a handler receives a primitive
    where it expects its options, and warms up. *)
Lemma static_build_prim call w cfg name vars (p : prim) st :
  factory (static_build call w cfg name vars (VPrim p) st) =
  match call w (engFirst cfg) name vars (VPrim (PBool true)) cfg st with
  | (Thrown, cfg', st') => (Thrown, cfg', st')
  | (_, cfg', st') => (Plain, cfg', st')
  end.
Proof.
  unfold static_build, property. rewrite options_or_empty_prim. simpl.
  destruct (call w (engFirst cfg) name vars (VPrim (PBool true)) cfg st) as [[[]]];
    reflexivity.
Qed.

Lemma template_build_prim call w cfg name vars (p : prim) st :
  factory (template_build call w cfg name vars (VPrim p) st) =
  match call w (engSecond cfg) name vars (VPrim PUndefined) cfg st with
  | (Thrown, cfg', st') => (Thrown, cfg', st')
  | (_, cfg', st') => (Plain, cfg', st')
  end.
Proof.
  unfold template_build. rewrite options_or_empty_prim. simpl.
  destruct (call w (engSecond cfg) name vars (VPrim PUndefined) cfg st) as [[[]]];
    reflexivity.
Qed.

(** Factories that call each other without end throw at any depth, and
    leave the configuration and the store as they were. *)
Lemma call_member_looping (d : nat) w member name vars (p : prim) cfg st :
  looping cfg member ->
  call_member d w member name vars (VPrim p) cfg st = (Thrown, cfg, st).
Proof.
  revert member p. induction d as [|d IH]; intros member p Hloop; [reflexivity |].
  destruct Hloop as [[-> H] | [[-> H] | [(-> & H1 & H2) | (-> & H1 & H2)]]].
  - rewrite call_member_static, static_build_prim, H, IH; [reflexivity |].
    left. auto.
  - rewrite call_member_template, template_build_prim, H, IH; [reflexivity |].
    right. left. auto.
  - rewrite call_member_static, static_build_prim, H1, IH; [reflexivity |].
    right. right. right. auto.
  - rewrite call_member_template, template_build_prim, H1, IH; [reflexivity |].
    right. right. left. auto.
Qed.

Lemma call_member_plain (d : nat) w member name vars third cfg st :
  String.eqb member "staticHandler" = false ->
  String.eqb member "templateHandler" = false ->
  call_member (S d) w member name vars third cfg st
    = plain_member w member name vars third cfg st.
Proof. intros Hs Ht. rewrite call_member_S, Hs, Ht. reflexivity. Qed.

(** The engine that a handler or a factory calls, with a primitive in
    third place, comes to the same at any depth from two on. *)
Lemma call_engine_deeper (d : nat) w member name vars (p : prim) cfg st :
  member = engFirst cfg \/ member = engSecond cfg ->
  call_member (S (S d)) w member name vars (VPrim p) cfg st
    = call_member 2 w member name vars (VPrim p) cfg st.
Proof.
  intros Hengine.
  destruct (String.eqb member "staticHandler") eqn:Hs.
  { apply String.eqb_eq in Hs. subst member.
    destruct (String.eqb (engFirst cfg) "staticHandler") eqn:Hfs.
    { apply String.eqb_eq in Hfs.
      rewrite !call_member_looping; [reflexivity | left; auto | left; auto]. }
    destruct (String.eqb (engFirst cfg) "templateHandler") eqn:Hft.
    { apply String.eqb_eq in Hft.
      destruct Hengine as [He | He]; [congruence |].
      rewrite !call_member_looping; [reflexivity | |];
        right; right; left; auto. }
    rewrite !call_member_static, !static_build_prim.
    rewrite !call_member_plain by assumption. reflexivity. }
  destruct (String.eqb member "templateHandler") eqn:Ht.
  { apply String.eqb_eq in Ht. subst member.
    destruct (String.eqb (engSecond cfg) "templateHandler") eqn:Hst.
    { apply String.eqb_eq in Hst.
      rewrite !call_member_looping; [reflexivity | |]; right; left; auto. }
    destruct (String.eqb (engSecond cfg) "staticHandler") eqn:Hss.
    { apply String.eqb_eq in Hss.
      destruct Hengine as [He | He]; [| congruence].
      rewrite !call_member_looping; [reflexivity | |];
        right; right; right; auto. }
    rewrite !call_member_template, !template_build_prim.
    rewrite !call_member_plain by assumption. reflexivity. }
  rewrite !call_member_plain by assumption. reflexivity.
Qed.

(** Three pending calls are enough: any member, called with any
    arguments, comes to the same at any greater depth. *)
Lemma call_member_deeper (d : nat) w member name vars third cfg st :
  call_member (stack + d) w member name vars third cfg st
    = call_member stack w member name vars third cfg st.
Proof.
  unfold stack. change (3 + d) with (S (S (S d))).
  rewrite (call_member_S (S (S d))), (call_member_S 2).
  destruct (String.eqb member "staticHandler").
  { unfold static_build.
    destruct (get (prop_warm (assign handler_defaults (options_or_empty third))));
      [| reflexivity].
    unfold property. rewrite call_engine_deeper by (left; reflexivity).
    destruct (call_member 2 _ _ _ _ _ _ _) as [[[]]]; reflexivity. }
  destruct (String.eqb member "templateHandler"); [| reflexivity].
  unfold template_build.
  destruct (get (prop_warm (assign handler_defaults (options_or_empty third))));
    [| reflexivity].
  rewrite call_engine_deeper by (right; reflexivity).
  destruct (call_member 2 _ _ _ _ _ _ _) as [[[]]]; reflexivity.
Qed.




(** X21: with the flag on and the second-pass engine left at
    ["handlebars"], a template handler built with warm-up, for a name
    that is not empty, does not end in a separator and has not the
    extension [.html], answers 404 once the warm-up has resolved, if
    the second-pass engine compiles no function (Handlebars throws on
    one): the request finds the compiled function where the renderer
    expects markup, and nothing is read, rendered or sent. *)
Theorem templateHandler_warm_then_not_found (w w' : world) (cfg : config)
    (name : string) (vars : option (gmap string string)) (options : value)
    (invoke : string -> gmap string string -> option string) (req : request)
    (locals : option (gmap string string)) (st st1 : state) (f : tvalue) :
  cache cfg = true ->
  engSecond cfg = "handlebars" ->
  name <> "" -> Path.ends_with_sep name = false -> Path.extname name <> ".html" ->
  get (prop_warm (handler_options options)) = true ->
  (forall h, compile w' (TFunction h) = None) ->
  Views.handlebars w cfg name vars st = (Resolved f, st1) ->
  exists handler,
    templateHandler w cfg name vars options st = (Some handler, cfg, st1) /\
    handler w' cfg invoke req locals st1
      = (Some (Served [res_status 404; res_end] (Some (Pipeline CompileError))),
         cfg, log (Compile f) st1).
Proof.
  intros Hflag Heng Hne Hsep Hhtml Hwarm Hthrows Hres.
  exists (template_request name vars). split.
  - unfold templateHandler, template_build. fold (handler_options options).
    rewrite Hwarm, Heng. unfold stack. rewrite call_member_S. simpl.
    unfold plain_member. simpl. now rewrite Hres.
  - unfold template_request, template_handle. rewrite Heng.
    unfold stack. rewrite call_member_S. simpl. unfold plain_member. simpl.
    rewrite (handlebars_again_aux w w' cfg name vars vars st st1 f
               Hflag Hne Hsep Hhtml Hres).
    destruct (handlebars_resolved_slot _ _ _ _ _ _ _ Hres) as [[h ->] _].
    rewrite Hthrows. reflexivity.
Qed.

Lemma templateHandler_warm_witness :
  let st1 := snd (Views.handlebars Sample.online Sample.production "app" None init) in
  cache Sample.production = true /\
  engSecond Sample.production = "handlebars" /\
  (forall h, compile Sample.online (TFunction h) = None) /\
  Views.handlebars Sample.online Sample.production "app" None init
    = (Resolved (TFunction "template:<b>hi</b>"), st1) /\
  exists handler,
    templateHandler Sample.online Sample.production "app" None (VPrim PUndefined) init
      = (Some handler, Sample.production, st1) /\
    handler Sample.online Sample.production Scenario.run Scenario.browser None st1
      = (Some (Served [res_status 404; res_end] (Some (Pipeline CompileError))),
         Sample.production,
         log (Compile (TFunction "template:<b>hi</b>")) st1).
Proof.
  cbv zeta.
  assert (H : Views.handlebars Sample.online Sample.production "app" None init
              = (Resolved (TFunction "template:<b>hi</b>"),
                 snd (Views.handlebars Sample.online Sample.production "app" None init)))
    by (vm_compute; reflexivity).
  split; [reflexivity |]. split; [reflexivity |].
  split; [reflexivity |]. split; [exact H |].
  exact (templateHandler_warm_then_not_found Sample.online Sample.online
           Sample.production "app" None (VPrim PUndefined) Scenario.run
           Scenario.browser None init _ _ eq_refl eq_refl
           ltac:(discriminate) eq_refl ltac:(discriminate) eq_refl
           (fun h => eq_refl) H).
Defined.

Lemma answered_sent (before : list res_call) (body : tvalue) :
  forallb sets_header before = true ->
  answered (Served (before ++ [res_send body]) None).
Proof. intros H. exists before. split; [exact H |]. left. eauto. Qed.

Lemma answered_not_found (before : list res_call) (err : failure) :
  forallb sets_header before = true -> answered (not_found before err).
Proof. intros H. exists before. split; [exact H |]. right. eauto. Qed.

(** The member that an engine names returns a promise if it is one of
    the four accessors, and nothing with a [then] otherwise. *)
Lemma call_member_promising w member name vars third cfg st :
  match fst (fst (call_member stack w member name vars third cfg st)) with
  | Promise _ => promising member = true
  | _ => promising member = false
  end.
Proof.
  unfold stack. rewrite call_member_S.
  destruct (String.eqb member "staticHandler") eqn:Hs.
  { apply String.eqb_eq in Hs. subst member.
    destruct (static_build _ _ _ _ _ _ _) as [[[h|] c] s]; reflexivity. }
  destruct (String.eqb member "templateHandler") eqn:Ht.
  { apply String.eqb_eq in Ht. subst member.
    destruct (template_build _ _ _ _ _ _ _) as [[[h|] c] s]; reflexivity. }
  unfold plain_member, promising. cbn [existsb].
  destruct (String.eqb member "jade");
    [destruct (Views.jade _ _ _ _ _ _); reflexivity |].
  destruct (String.eqb member "handlebars");
    [destruct (Views.handlebars _ _ _ _ _); reflexivity |].
  destruct (String.eqb member "file");
    [destruct (Views.file _ _ _ _ _); reflexivity |].
  destruct (String.eqb member "publicFile");
    [destruct (Views.publicFile _ _ _ _ _); reflexivity |].
  repeat (match goal with
          | |- context [if ?b then _ else _] => destruct b; [reflexivity |]
          end).
  reflexivity.
Qed.

(** X22: a request is answered exactly when the engine of the handler
    names a member that returns a promise; it is then answered once
    and without contradiction.  The script handler names its accessor
    itself and answers every request; the static and the template
    handler answer when their engine is one of [jade], [handlebars],
    [file] and [publicFile], and throw before any call on the response
    for every other name.  An answer is made of calls that only set
    headers, followed either by a body, with no error handed on, or by
    the status 404 and the end of the response without a body, with the
    error handed on: every failure, of the read, of an engine or of the
    compiled template, is answered 404. *)
Theorem requests_are_answered :
  (forall name w cfg req st, answered (fst (script_request name w cfg req st))) /\
  (forall name vars o w cfg req st,
     match fst (fst (static_request name vars o w cfg req st)) with
     | Some s => promising (engFirst cfg) = true /\ answered s
     | None => promising (engFirst cfg) = false
     end) /\
  (forall name vars w cfg invoke req locals st,
     match fst (fst (template_request name vars w cfg invoke req locals st)) with
     | Some s => promising (engSecond cfg) = true /\ answered s
     | None => promising (engSecond cfg) = false
     end).
Proof.
  split; [| split].
  - intros. unfold script_request. cbv zeta.
    destruct (Views.publicFile _ _ _ _ _) as [[data|e] st']; cbn [fst].
    + destruct (accepts_gzip req); [apply (answered_sent [_]) | apply (answered_sent [])];
        reflexivity.
    + now apply answered_not_found.
  - intros name vars o w cfg req st. unfold static_request, static_handle.
    pose proof (call_member_promising w (engFirst cfg) name vars
                  (property (prop_cache o)) cfg st) as H.
    destruct (call_member _ _ _ _ _ _ _ _) as [[[[html|e]| |] c] s]; cbn [fst] in *;
      try exact H; (split; [exact H |]).
    + now apply (answered_sent [_]).
    + now apply answered_not_found.
  - intros name vars w cfg invoke req locals st.
    unfold template_request, template_handle.
    pose proof (call_member_promising w (engSecond cfg) name vars
                  (VPrim PUndefined) cfg st) as H.
    destruct (call_member _ _ _ _ _ _ _ _) as [[[[[html|b|template]|e]| |] c] s];
      cbn [fst] in *; try exact H;
      try (split; [exact H | now apply answered_not_found]).
    destruct (invoke template _); cbn [fst]; (split; [exact H |]);
      [now apply (answered_sent [_]) | now apply answered_not_found].
Qed.

Lemma requests_are_answered_witness :
  let out := static_request "missing" None empty_object Sample.online Sample.production
               Scenario.browser init in
  out = (Some (Served [res_status 404; res_end]
                 (Some (Pipeline (ReadError "/srv/site/views/missing.jade")))),
         Sample.production,
         log (Read "/srv/site/views/missing.jade") init) /\
  answered (Served [res_status 404; res_end]
              (Some (Pipeline (ReadError "/srv/site/views/missing.jade")))).
Proof.
  cbv zeta.
  assert (H : static_request "missing" None empty_object Sample.online Sample.production
                Scenario.browser init
              = (Some (Served [res_status 404; res_end]
                         (Some (Pipeline (ReadError "/srv/site/views/missing.jade")))),
                 Sample.production,
                 log (Read "/srv/site/views/missing.jade") init))
    by (vm_compute; reflexivity).
  split; [exact H |].
  pose proof (proj1 (proj2 requests_are_answered) "missing" None empty_object
                Sample.online Sample.production Scenario.browser init) as Hanswered.
  rewrite H in Hanswered. exact (proj2 Hanswered).
Defined.

(** An engine named after a getter/setter: the request sets the root
    to the name of the template and throws; an engine named after the
    factory that looks it up: the factory throws. *)
Lemma engines_that_are_no_engines :
  let as_root := snd (Views.firstPass (Some "root") Sample.production) in
  let as_factory := snd (Views.firstPass (Some "staticHandler") Sample.production) in
  static_request "app" None empty_object Sample.online as_root Scenario.browser init
    = (None, snd (Views.root (Some "app") as_root), init) /\
  built (staticHandler Sample.online as_factory "app" None (VPrim PUndefined) init)
    = (false, as_factory, init).
Proof. cbv zeta. split; vm_compute; reflexivity. Qed.

End Handlers.

(** ** The earlier version *)

Section LegacyVersion.

Lemma legacy_read_file_unfold (w : world) (name type : string) (st : state) :
  Legacy.read_file w name type st =
  match fs w name with
  | None => (Rejected (ReadError name), log (Read name) st)
  | Some file =>
      match gzip w file with
      | None => (Rejected CompressionError, log (Gzip file) (log (Read name) st))
      | Some zipped =>
          (Resolved (Views.representation (Entry (Some file) (Some zipped)) type),
           set_files (insert name (Entry (Some file) (Some zipped)))
             (log (Gzip file) (log (Read name) st)))
      end
  end.
Proof.
  unfold Legacy.read_file, then_, readFile, zip, when, of_option.
  destruct (fs w name) as [file|]; simpl; [| reflexivity].
  destruct (gzip w file); reflexivity.
Qed.

Lemma legacy_lookup_stored (fs : gmap string entry) (name : string) (e : entry) :
  fs !! name = Some e -> Legacy.lookup fs name = Some (Legacy.Stored e).
Proof. intros H. unfold Legacy.lookup. now rewrite H. Qed.

(** X23: in the earlier version every read stores both
    representations, so that, with the flag on, a call that found
    nothing under its path, stored or inherited, and resolved is
    followed by hits only: every later call for that path, for the raw
    bytes or the compressed ones, resolves to them without a capability
    call, whatever has become of the file. *)
Theorem legacy_file_one_read_serves_both (w w' : world) (cfg : config) (name : string)
    (needsZip needsZip' : value) (st st1 : state) (b : option bytes) :
  cache cfg = true ->
  Legacy.lookup (files st) name = None ->
  Legacy.file w cfg name needsZip st = (Resolved b, st1) ->
  exists file zipped,
    fs w name = Some file /\ gzip w file = Some zipped /\
    files st1 !! name = Some (Entry (Some file) (Some zipped)) /\
    Legacy.file w' cfg name needsZip' st1
      = (Resolved (Some (if Legacy.truthy_value needsZip' then zipped else file)), st1).
Proof.
  intros Hflag Hcold. unfold Legacy.file. rewrite Hcold, legacy_read_file_unfold.
  destruct (fs w name) as [file|] eqn:Hfs; [| discriminate].
  destruct (gzip w file) as [zipped|] eqn:Hgz; [| discriminate].
  intros [= <- <-]. exists file, zipped.
  split; [reflexivity |]. split; [exact Hgz |]. split.
  - simpl. apply lookup_insert_eq.
  - simpl files.
    rewrite (legacy_lookup_stored _ name (Entry (Some file) (Some zipped)))
      by apply lookup_insert_eq.
    rewrite Hflag. destruct (Legacy.truthy_value needsZip'); reflexivity.
Qed.

Lemma legacy_file_witness :
  let p := "/srv/site/public/app.js" in
  let st1 := snd (Legacy.file Sample.online Sample.production p (VPrim (PBool false))
                    init) in
  Legacy.lookup (files init) p = None /\
  Legacy.file Sample.online Sample.production p (VPrim (PBool false)) init
    = (Resolved (Some Sample.hi), st1) /\
  Legacy.file Sample.wiped Sample.production p (VPrim (PBool true)) st1
    = (Resolved (Some [Byte.x1f; Byte.x8b; Byte.x68; Byte.x69]), st1).
Proof.
  cbv zeta.
  assert (H : Legacy.file Sample.online Sample.production "/srv/site/public/app.js"
                (VPrim (PBool false)) init
              = (Resolved (Some Sample.hi),
                 snd (Legacy.file Sample.online Sample.production
                        "/srv/site/public/app.js" (VPrim (PBool false)) init)))
    by (vm_compute; reflexivity).
  split; [reflexivity |]. split; [exact H |].
  destruct (legacy_file_one_read_serves_both Sample.online Sample.wiped
              Sample.production "/srv/site/public/app.js" (VPrim (PBool false))
              (VPrim (PBool true)) init _ _ eq_refl eq_refl H)
    as (file & zipped & Hfs & Hgz & _ & Hhit).
  injection Hfs as <-. injection Hgz as <-. exact Hhit.
Defined.

(** X24: the earlier version compresses whatever is asked for: a call
    for the raw bytes that has to read, because its path names nothing
    stored or inherited or because the flag is off, also calls gzip,
    and is rejected with the compression error, with nothing stored,
    when gzip fails. *)
Theorem legacy_file_raw_request_compresses (w : world) (cfg : config) (name : string)
    (needsZip : value) (st : state) (file : bytes) :
  Legacy.lookup (files st) name = None \/ cache cfg = false ->
  fs w name = Some file ->
  trace (snd (Legacy.file w cfg name needsZip st))
    = trace st ++ [Read name; Gzip file] /\
  (gzip w file = None ->
   fst (Legacy.file w cfg name needsZip st) = Rejected CompressionError /\
   files (snd (Legacy.file w cfg name needsZip st)) = files st).
Proof.
  intros Hmiss Hfs.
  assert (Hread : Legacy.file w cfg name needsZip st
                  = Legacy.read_file w name
                      (if Legacy.truthy_value needsZip then "zip" else "std") st).
  { unfold Legacy.file. destruct Hmiss as [-> | ->]; [reflexivity |].
    destruct (Legacy.lookup (files st) name); reflexivity. }
  rewrite Hread, legacy_read_file_unfold, Hfs.
  destruct (gzip w file); simpl; rewrite <- app_assoc; split;
    try reflexivity; try discriminate. intros _. split; reflexivity.
Qed.

Lemma legacy_file_raw_request_witness :
  let broken := World Sample.disk string_of_list_byte (fun _ => None)
                  Sample.sample_render Sample.sample_compile false in
  let out := Legacy.file broken Sample.production "/srv/site/public/app.js"
               (VPrim (PBool false)) init in
  fs broken "/srv/site/public/app.js" = Some Sample.hi /\
  trace (snd out) = [Read "/srv/site/public/app.js"; Gzip Sample.hi] /\
  fst out = Rejected CompressionError /\
  files (snd out) = files init /\
  fst (Views.file broken Sample.production "/srv/site/public/app.js" Sample.no_zip init)
    = Resolved Sample.hi.
Proof.
  cbv zeta. split; [reflexivity |].
  destruct (legacy_file_raw_request_compresses
              (World Sample.disk string_of_list_byte (fun _ => None)
                 Sample.sample_render Sample.sample_compile false)
              Sample.production "/srv/site/public/app.js" (VPrim (PBool false)) init
              Sample.hi (or_introl eq_refl) eq_refl) as [Htrace Hfail].
  split; [exact Htrace |].
  destruct (Hfail eq_refl) as [Hout Hfiles].
  split; [exact Hout |]. split; [exact Hfiles | reflexivity].
Defined.

(** X26: in the earlier version, with the flag on, a path that is the
    name of a member that the store inherits from [Object.prototype],
    and under which nothing was stored, is taken for a hit: the call
    resolves to [undefined] and the file is never read. *)
Theorem legacy_file_inherited_name (w : world) (cfg : config) (name : string)
    (needsZip : value) (st : state) :
  cache cfg = true ->
  In name Legacy.inherited ->
  files st !! name = None ->
  Legacy.file w cfg name needsZip st = (Resolved None, st).
Proof.
  intros Hflag Hin Hnone. unfold Legacy.file, Legacy.lookup. rewrite Hnone.
  assert (Hex : existsb (String.eqb name) Legacy.inherited = true).
  { apply existsb_exists. exists name. split; [exact Hin | apply String.eqb_refl]. }
  rewrite Hex, Hflag. reflexivity.
Qed.

Lemma legacy_file_inherited_witness :
  fs Scenario.cwd "constructor" = Some Sample.hi /\
  Legacy.file Scenario.cwd Sample.production "constructor" (VPrim (PBool false)) init
    = (Resolved None, init) /\
  Legacy.file Scenario.cwd Sample.development "constructor" (VPrim (PBool false)) init
    = (Resolved (Some Sample.hi),
       State {["constructor" := Entry (Some Sample.hi)
                                  (Some [Byte.x1f; Byte.x8b; Byte.x68; Byte.x69])]}
             ∅ [Read "constructor"; Gzip Sample.hi]).
Proof.
  split; [reflexivity |]. split; [| vm_compute; reflexivity].
  apply (legacy_file_inherited_name Scenario.cwd Sample.production "constructor"
           (VPrim (PBool false)) init); [reflexivity | | reflexivity].
  simpl. auto.
Defined.

(** Once a file named [__proto__] has been read, with the flag off,
    the entry is the prototype of the store: with the flag on, the
    paths [std] and [zip] are taken for hits too. *)
Lemma legacy_file_prototype_installed :
  let st := snd (Legacy.file Scenario.cwd Sample.development "__proto__"
                   (VPrim (PBool false)) init) in
  Legacy.lookup (files init) "std" = None /\
  Legacy.lookup (files st) "std" = Some Legacy.Foreign /\
  Legacy.file Scenario.cwd Sample.production "std" (VPrim (PBool false)) st
    = (Resolved None, st) /\
  Legacy.file Scenario.cwd Sample.production "__proto__" (VPrim (PBool false)) st
    = (Resolved (Some Sample.hi), st).
Proof. cbv zeta. repeat split; vm_compute; reflexivity. Qed.

(** With [cacheResults] false the earlier first-pass renderer stores
    nothing. *)
Lemma legacy_jade_uncached (w : world) (cfg : config) (name : string)
    (vars : option (gmap string string)) (st : state) :
  templates (snd (Legacy.jade w cfg name vars (VPrim (PBool false)) st)) = templates st.
Proof.
  unfold Legacy.jade, readFile_utf8, tap, then_, readFile, try_render, when, of_option.
  cbv zeta. simpl typeof. simpl String.eqb. simpl Legacy.truthy_value.
  destruct (templates st !! addExtension name "jade") as [t|];
    [destruct (truthy_tvalue t && cache cfg)%bool |]; try reflexivity;
    (destruct (fs w _); simpl; [destruct (render w _ _) |]; reflexivity).
Qed.

(** X25: in the earlier version a second-pass call that resolves
    changes the template cache in one slot only, that of the name with
    the extension enforced, where it leaves the compiled function: the
    markup of the first pass, obtained with [cacheResults] false, is not
    stored anywhere. *)
Theorem legacy_handlebars_stores_the_function_only (w : world) (cfg : config)
    (name : string) (vars : option (gmap string string)) (st st' : state) (f : tvalue) :
  Legacy.handlebars w cfg name vars st = (Resolved f, st') ->
  (exists h, f = TFunction h) /\
  templates st' = <[addExtension name "jade" := f]> (templates st).
Proof.
  unfold Legacy.handlebars, tap, then_, try_compile, of_option. cbv zeta.
  destruct (String.eqb (Path.extname (addExtension name "jade")) ".html").
  - unfold readFile, when, of_option. destruct (fs w _) as [b|]; [| discriminate].
    simpl. destruct (compile w (TBuffer b)) as [h|]; [| discriminate].
    intros [= <- <-]. split; [eauto | reflexivity].
  - pose proof (legacy_jade_uncached w cfg (addExtension name "jade") vars st) as Hj.
    destruct (Legacy.jade w cfg (addExtension name "jade") vars (VPrim (PBool false)) st)
      as [[html|e] st1]; [| discriminate].
    simpl in Hj. simpl. destruct (compile w html) as [h|]; [| discriminate].
    intros [= <- <-]. simpl. rewrite Hj. split; [eauto | reflexivity].
Qed.

Lemma legacy_handlebars_witness :
  let st' := snd (Legacy.handlebars Sample.online Sample.development "app" None init) in
  Legacy.handlebars Sample.online Sample.development "app" None init
    = (Resolved (TFunction "template:<b>hi</b>"), st') /\
  templates st' = {["app.jade" := TFunction "template:<b>hi</b>"]}.
Proof.
  cbv zeta.
  assert (H : Legacy.handlebars Sample.online Sample.development "app" None init
              = (Resolved (TFunction "template:<b>hi</b>"),
                 snd (Legacy.handlebars Sample.online Sample.development "app" None init)))
    by (vm_compute; reflexivity).
  split; [exact H |].
  destruct (legacy_handlebars_stores_the_function_only _ _ _ _ _ _ _ H) as [_ ->].
  reflexivity.
Defined.

End LegacyVersion.
